(** * confluence-dumper: export reconciliation and content extraction

    A shallow embedding of [src/file_cleaner.py] (class [URLProcessor]) and of
    [extract_content] from [src/utils.py], with the properties of the
    natural-language specification stated and proved over it.

    Conventions of the embedding.
    - A Python [str] is a [string]; its characters are code points below 256.
    - A Python [dict] is an association list in insertion order: assigning to
      a key that exists replaces its value in place, assigning to a new key
      appends the entry (see [dict_set]).
    - A raised Python exception is the left summand of [result].
    - Collaborators the code calls but does not define (the HTTP client, the
      HTML parser, the directory listing and the JSON decoder) are either
      variables of a section or the already decoded input of a function. *)

From Stdlib Require Import String Ascii List Bool Arith Lia.
From Equations Require Import Equations.
Import ListNotations.

Set Warnings "-register-all".

Local Open Scope string_scope.
Local Open Scope list_scope.

(** ** Python string primitives *)

Module PyStr.

(** [s.startswith(p)] *)
Definition startswith (p s : string) : bool := String.prefix p s.

(** [s.endswith(suffix)]: some tail of [s] is [suffix]. *)
Fixpoint endswith (suffix s : string) : bool :=
  (s =? suffix) ||
  match s with
  | EmptyString => false
  | String _ s' => endswith suffix s'
  end.

(** [v in s] on strings: [v] occurs in [s] as a contiguous substring. *)
Fixpoint contains (v s : string) : bool :=
  String.prefix v s ||
  match s with
  | EmptyString => false
  | String _ s' => contains v s'
  end.

(** [c in chars] for a character. *)
Fixpoint mem_char (c : ascii) (chars : string) : bool :=
  match chars with
  | EmptyString => false
  | String d chars' => Ascii.eqb c d || mem_char c chars'
  end.

(** [s.rstrip(chars)]: drop the longest tail made of characters of [chars]. *)
Fixpoint rstrip (chars s : string) : string :=
  match s with
  | EmptyString => EmptyString
  | String c s' =>
      match rstrip chars s' with
      | EmptyString => if mem_char c chars then EmptyString else String c EmptyString
      | r => String c r
      end
  end.

(** [s.split(sep)] for a one-character separator: never empty, adjacent
    separators give empty segments. *)
Fixpoint split (sep : ascii) (s : string) : list string :=
  match s with
  | EmptyString => [EmptyString]
  | String c s' =>
      if Ascii.eqb c sep then EmptyString :: split sep s'
      else match split sep s' with
           | seg :: segs => String c seg :: segs
           | [] => [String c EmptyString]
           end
  end.

(** [l[-1]]; [None] stands for [IndexError]. *)
Fixpoint last_item {A} (l : list A) : option A :=
  match l with
  | [] => None
  | [x] => Some x
  | _ :: l' => last_item l'
  end.

(** [c.isdigit()] on code points below 256: the ASCII digits and the
    superscripts U+00B2, U+00B3, U+00B9. *)
Definition isdigit (c : ascii) : bool :=
  let n := nat_of_ascii c in
  (((48 <=? n) && (n <=? 57)) || (n =? 178) || (n =? 179) || (n =? 185))%nat.

(** [s[len(p):]] when [s] starts with [p]. *)
Fixpoint strip_prefix (p s : string) : option string :=
  match p, s with
  | EmptyString, _ => Some s
  | String a p', String b s' => if Ascii.eqb a b then strip_prefix p' s' else None
  | String _ _, EmptyString => None
  end.

End PyStr.

Import PyStr.

(** ** Exceptions and results *)

Inductive exn : Type :=
| KeyError (key : string)
| IndexError
| TypeError
| AttributeError
| JSONDecodeError
| ZeroDivisionError
| RequestException.

Definition result (A : Type) : Type := (exn + A)%type.

Definition ok {A} (a : A) : result A := inr a.
Definition raise {A} (e : exn) : result A := inl e.

Definition bind {A B} (m : result A) (k : A -> result B) : result B :=
  match m with
  | inl e => inl e
  | inr a => k a
  end.

Notation "x <- m ;; k" := (bind m (fun x => k))
  (at level 61, m at next level, right associativity).

(** ** Python dictionaries and JSON values *)

Definition dict (V : Type) : Type := list (string * V).

Fixpoint dict_get {V} (k : string) (d : dict V) : option V :=
  match d with
  | [] => None
  | (k', v) :: d' => if (k' =? k)%string then Some v else dict_get k d'
  end.

(** [d[k] = v] *)
Fixpoint dict_set {V} (k : string) (v : V) (d : dict V) : dict V :=
  match d with
  | [] => [(k, v)]
  | (k', v') :: d' =>
      if (k' =? k)%string then (k', v) :: d' else (k', v') :: dict_set k v d'
  end.

Definition keys {V} (d : dict V) : list string := map fst d.
Definition values {V} (d : dict V) : list V := map snd d.

(** What [json.load] returns. A number keeps its literal: nothing here
    computes with it. *)
Inductive json : Type :=
| JNull
| JBool (b : bool)
| JNumber (literal : string)
| JString (s : string)
| JArray (items : list json)
| JObject (fields : dict json).

(** [data[k]] for a string key [k]. *)
Definition getitem (data : json) (k : string) : result json :=
  match data with
  | JObject d =>
      match dict_get k d with
      | Some v => ok v
      | None => raise (KeyError k)
      end
  | _ => raise TypeError
  end.

(** [data[k] = v] for a string key [k]. *)
Definition setitem (data : json) (k : string) (v : json) : result json :=
  match data with
  | JObject d => ok (JObject (dict_set k v d))
  | _ => raise TypeError
  end.

(** The receiver of a [str] method ([rstrip], [startswith]): any other JSON
    value has no such attribute. *)
Definition as_str (v : json) : result string :=
  match v with
  | JString s => ok s
  | _ => raise AttributeError
  end.

(** [{k: data[k] for k in ks}], built entry by entry. *)
Fixpoint dict_comprehension (data : json) (ks : list string) (acc : dict json)
  : result (dict json) :=
  match ks with
  | [] => ok acc
  | k :: ks' =>
      v <- getitem data k ;;
      dict_comprehension data ks' (dict_set k v acc)
  end.

(** ** [URLProcessor.clean_export_data] *)

(** A value of [self.mapping]: what [tag.get("data-vp-page-id")] returned,
    a [str], or [None] when the tag carries no such attribute. *)
Definition page_id : Type := option string.

(** [self.mapping]: url to page id, in insertion order. *)
Definition mapping_t : Type := dict page_id.

(** [page_id == current_page_id]; [None] equals no string. *)
Definition page_id_eqb (p : page_id) (current_page_id : string) : bool :=
  match p with
  | Some s => (s =? current_page_id)%string
  | None => false
  end.

(** [value in u] for a string [u]: [None] on the left is a [TypeError]. *)
Definition str_in (value : page_id) (u : string) : result bool :=
  match value with
  | Some v => ok (contains v u)
  | None => raise TypeError
  end.

(** [data["url"].rstrip("/").split("/")[-1]] once [data["url"]] is the
    string [u]. *)
Definition current_page_id_of (u : string) : option string :=
  last_item (split "/" (rstrip "/" u)).

(** Lines 66-70, the scan of [self.mapping.items()]. [u] is [data["url"]],
    the string on which [rstrip] has succeeded at line 63; nothing assigns to
    [data] between line 63 and the [break], so lines 67 and 68 read [u]. *)
Fixpoint rewrite_url (items : mapping_t) (u : string) (data : json) : result json :=
  match items with
  | [] => ok data
  | (key, value) :: items' =>
      found <- str_in value u ;;
      if found then
        data <- setitem data "internal_url" (JString u) ;;
        setitem data "url" (JString key)
      else rewrite_url items' u data
  end.

(** An entry of [os.listdir(input_folder)] with what [json.load] makes of
    the file: a decoded document, or [Malformed] when the text of the file is
    not JSON and decoding raises [JSONDecodeError]. The other failures of
    [open] and [json.load] (a directory, a file that cannot be read or whose
    bytes are not text) are outside the model. *)
Inductive file_content : Type :=
| Json (doc : json)
| Malformed.

Definition json_load (c : file_content) : result json :=
  match c with
  | Json doc => ok doc
  | Malformed => raise JSONDecodeError
  end.

Definition listing : Type := list (string * file_content).

(** What the run prints; the ratio is kept as the two lengths it divides. *)
Inductive event : Type :=
| PrintSkipping (filename : string)
| PrintRatio (good total : nat)
| PrintSampleGood (sample : list json)
| PrintSampleFailed (sample : list json).

(** The files written under [output_folder] (by file name, in writing
    order), the two local lists and the console. *)
Record cleaner_state : Type := mk_state {
  written : list (string * json);
  good_mappings : list json;
  failed_mappings : list json;
  stdout : list event
}.

(** After [shutil.rmtree] and [os.makedirs]: an empty output folder. *)
Definition initial_state : cleaner_state := mk_state [] [] [] [].

Definition print (e : event) (st : cleaner_state) : cleaner_state :=
  mk_state (written st) (good_mappings st) (failed_mappings st) (stdout st ++ [e]).

Definition write_good (filename : string) (data url : json) (st : cleaner_state)
  : cleaner_state :=
  mk_state (written st ++ [(filename, data)]) (good_mappings st ++ [url])
           (failed_mappings st) (stdout st).

Definition append_failed (url : json) (st : cleaner_state) : cleaner_state :=
  mk_state (written st) (good_mappings st) (failed_mappings st ++ [url]) (stdout st).

Definition cleaned_fields : list string :=
  ["title"; "internal_url"; "url"; "paragraphs"].

(** The body of the loop, lines 54-82, for one directory entry. Every
    operation that can raise comes before the first effect, so a raising
    iteration leaves the state as it was. *)
Definition process_file (mapping : mapping_t) (filename : string)
    (content : file_content) (st : cleaner_state) : result cleaner_state :=
  if negb (endswith ".json" filename) then ok (print (PrintSkipping filename) st)
  else
    data <- json_load content ;;
    url <- getitem data "url" ;;
    u <- as_str url ;;
    match current_page_id_of u with
    | None => raise IndexError
    | Some current_page_id =>
        if existsb (fun p => page_id_eqb p current_page_id) (values mapping) then
          data <- rewrite_url mapping u data ;;
          title <- getitem data "title" ;;
          t <- as_str title ;;
          if startswith "Forward to" t then ok st
          else
            fields <- dict_comprehension data cleaned_fields [] ;;
            new_url <- getitem (JObject fields) "url" ;;
            ok (write_good filename (JObject fields) new_url st)
        else
          failed_url <- getitem data "url" ;;
          ok (append_failed failed_url st)
    end.

(** The [for] loop: the state reached and the exception, if one ended it. *)
Fixpoint process_files (mapping : mapping_t) (files : listing) (st : cleaner_state)
  : cleaner_state * option exn :=
  match files with
  | [] => (st, None)
  | (filename, content) :: files' =>
      match process_file mapping filename content st with
      | inl e => (st, Some e)
      | inr st' => process_files mapping files' st'
      end
  end.

(** Lines 84-86. *)
Definition report (st : cleaner_state) : cleaner_state * option exn :=
  let total := length (good_mappings st ++ failed_mappings st) in
  if (total =? 0)%nat then (st, Some ZeroDivisionError)
  else
    (print (PrintSampleFailed (firstn 5 (failed_mappings st)))
       (print (PrintSampleGood (firstn 5 (good_mappings st)))
          (print (PrintRatio (length (good_mappings st)) total) st)),
     None).

Definition clean_export_data (mapping : mapping_t) (input_folder : listing)
  : cleaner_state * option exn :=
  match process_files mapping input_folder initial_state with
  | (st, Some e) => (st, Some e)
  | (st, None) => report st
  end.

(** ** [URLProcessor.extract_href_urls] *)

Definition dquote : ascii := "034"%char.

(** The literal head of the pattern: href= and a double quote. *)
Definition href_open : string := ("href=" ++ String dquote EmptyString)%string.

(** The group and the closing quote: the characters up to the next double
    quote, and what follows that quote; no match when no quote follows. *)
Fixpoint upto_quote (s : string) : option (string * string) :=
  match s with
  | EmptyString => None
  | String c s' =>
      if Ascii.eqb c dquote then Some (EmptyString, s')
      else match upto_quote s' with
           | Some (value, rest) => Some (String c value, rest)
           | None => None
           end
  end.

(** A match of the pattern anchored at the start of [s]: the group and the
    text after the match. *)
Definition match_href (s : string) : option (string * string) :=
  match strip_prefix href_open s with
  | Some tail => upto_quote tail
  | None => None
  end.

Definition inspect {A} (a : A) : {b : A | a = b} := exist _ a eq_refl.

(** [re.findall(pattern, text)]: the groups of the leftmost non-overlapping
    matches; the search resumes after a match, or one character further
    when none starts here. *)
Equations findall_href (text : string) : list string by wf (String.length text) lt :=
findall_href EmptyString := [];
findall_href (String c text') with inspect (match_href (String c text')) := {
  | exist _ (Some (value, rest)) _ => value :: findall_href rest
  | exist _ None _ => findall_href text' }.
Next Obligation.
  assert (Hq : forall s v r, upto_quote s = Some (v, r) ->
                             String.length r < String.length s).
  { induction s as [|a s IH]; simpl; intros v r H; [discriminate|].
    destruct (Ascii.eqb a dquote).
    - inversion H; subst; lia.
    - destruct (upto_quote s) as [[v' r']|]; [|discriminate].
      inversion H; subst. specialize (IH _ _ eq_refl). lia. }
  assert (Hp : forall p s tail, strip_prefix p s = Some tail ->
                                String.length tail <= String.length s).
  { induction p as [|a p IH]; simpl; intros s tail H.
    - inversion H; lia.
    - destruct s as [|b s]; [discriminate|].
      destruct (Ascii.eqb a b); [|discriminate].
      apply IH in H. simpl. lia. }
  unfold match_href in e.
  destruct (strip_prefix href_open (String c text')) as [tail|] eqn:E; [|discriminate].
  apply Hq in e. apply Hp in E. simpl String.length in E. lia.
Qed.

(** The list comprehension of line 20. *)
Definition extract_href_urls (base_url text url_subdir : string) : list string :=
  map (fun url => (base_url ++ url)%string)
      (filter (fun url => startswith ("/" ++ url_subdir ++ "/")%string url)
              (findall_href text)).

(** ** The HTML parser, [extract_content] and [create_page_id_mapping]

    BeautifulSoup and [requests] are collaborators: the section takes the
    queries the code makes of them as variables. *)

Section Collaborators.

Variables soup tag : Type.

(** [BeautifulSoup(html, "html.parser")] *)
Variable BeautifulSoup : string -> soup.
(** [soup.find_all()]: every element, in document order. *)
Variable find_all : soup -> list tag.
(** [element.name] and [element.get_text()] *)
Variable name : tag -> string.
Variable get_text : tag -> string.
(** [soup.title], the first title element if any, and [tag.string]. *)
Variable title_tag : soup -> option tag.
Variable string_of : tag -> option string.
(** [soup.find("html", class_="no-js")] and [tag.get(key)]. *)
Variable find_html_no_js : soup -> option tag.
Variable get_attr : tag -> string -> option string.

(** The test of line 78 on [element.name]. *)
Definition is_heading (n : string) : bool :=
  startswith "h" n && (String.length n =? 2)%nat &&
  match String.get 1 n with
  | Some c => isdigit c
  | None => false
  end.

Definition paragraph (header content : string) : json :=
  JObject [("header", JString header); ("content", JString content)].

(** The loop of lines 77-83 from its two variables [current_header] and
    [paragraphs]. *)
Fixpoint paragraphs_loop (elements : list tag) (current_header : string)
    (paragraphs : list json) : list json :=
  match elements with
  | [] => paragraphs
  | element :: elements' =>
      if is_heading (name element) then
        paragraphs_loop elements' (get_text element) paragraphs
      else if (name element =? "p")%string then
        paragraphs_loop elements' current_header
          (paragraphs ++ [paragraph current_header (get_text element)])
      else paragraphs_loop elements' current_header paragraphs
  end.

(** A tag is always truthy, so [soup.title.string] is taken whenever a
    title element exists; it is [None] unless the element holds one string. *)
Definition title_of (s : soup) : json :=
  match title_tag s with
  | Some t =>
      match string_of t with
      | Some text => JString text
      | None => JNull
      end
  | None => JString "No Title"
  end.

Definition extract_content (html web_url : string) : json :=
  let s := BeautifulSoup html in
  let paragraphs := paragraphs_loop (find_all s) "" [] in
  JObject [("title", title_of s); ("url", JString web_url);
           ("paragraphs", JArray paragraphs)].

(** The network: [requests.get(url).text], or the exception it raises, as
    a transition of the state [World] of everything outside the process. *)
Variable World : Type.
Variable requests_get : string -> World -> World * result string.

(** [create_page_id_mapping]: the mapping and world reached, and the
    exception that ended the loop, if any. [tag.get] on a missing tag is an
    [AttributeError]. *)
Fixpoint create_page_id_mapping (urls : list string) (w : World) (mapping : mapping_t)
  : World * mapping_t * option exn :=
  match urls with
  | [] => (w, mapping, None)
  | url :: urls' =>
      match requests_get url w with
      | (w', inl e) => (w', mapping, Some e)
      | (w', inr html) =>
          match find_html_no_js (BeautifulSoup html) with
          | None => (w', mapping, Some AttributeError)
          | Some t =>
              create_page_id_mapping urls' w'
                (dict_set url (get_attr t "data-vp-page-id") mapping)
          end
      end
  end.

(** ** The script ([__main__]) *)

(** One iteration of the loop over spaces reads the raw HTML of the space and
    lists its export folder. *)
Record space : Type := mk_space {
  raw_html : string;
  url_subdir : string;
  export_folder : listing
}.

(** Writing the urls to the links file, one per line, and reading them back
    with [splitlines]. *)
Variable links_file_lines : list string -> list string.

(** The loop of lines 106-126 from the processor's state. It returns, for
    every space whose [clean_export_data] was reached, the mapping that call
    read and the state it produced; then the final mapping and the exception
    that stopped the script, if any. *)
Fixpoint main_loop (base_url : string) (spaces : list space) (w : World)
    (mapping : mapping_t)
  : list (mapping_t * cleaner_state) * mapping_t * option exn :=
  match spaces with
  | [] => ([], mapping, None)
  | sp :: spaces' =>
      let urls :=
        links_file_lines (extract_href_urls base_url (raw_html sp) (url_subdir sp)) in
      match create_page_id_mapping urls w mapping with
      | (_, mapping', Some e) => ([], mapping', Some e)
      | (w', mapping', None) =>
          match clean_export_data mapping' (export_folder sp) with
          | (st, Some e) => ([(mapping', st)], mapping', Some e)
          | (st, None) =>
              let '(runs, final, r) := main_loop base_url spaces' w' mapping' in
              ((mapping', st) :: runs, final, r)
          end
      end
  end.

(** [URLProcessor(base_url)] starts from the empty mapping. *)
Definition main (spaces : list space) (w : World)
  : list (mapping_t * cleaner_state) * mapping_t * option exn :=
  main_loop "https://knowledgebase.zetaglobal.com" spaces w [].

(** ** Vocabulary of the statements about the collaborators *)

(** The test of line 81. *)
Definition is_p (e : tag) : bool := (name e =? "p")%string.

(** The header in force after the elements [pre], from the header [h]: the
    text of the last heading among them, [h] when there is none. *)
Definition running_header (h : string) (pre : list tag) : string :=
  fold_left (fun hdr e => if is_heading (name e) then get_text e else hdr) pre h.

(** The urls a space resolves. *)
Definition urls_of (base_url : string) (sp : space) : list string :=
  links_file_lines (extract_href_urls base_url (raw_html sp) (url_subdir sp)).

End Collaborators.

Arguments paragraphs_loop {tag} name get_text elements current_header paragraphs.
Arguments title_of {soup tag} title_tag string_of s.
Arguments extract_content {soup tag} BeautifulSoup find_all name get_text title_tag
  string_of html web_url.
Arguments create_page_id_mapping {soup tag} BeautifulSoup find_html_no_js get_attr
  {World} requests_get urls w mapping.
Arguments main_loop {soup tag} BeautifulSoup find_html_no_js get_attr {World}
  requests_get links_file_lines base_url spaces w mapping.
Arguments main {soup tag} BeautifulSoup find_html_no_js get_attr {World}
  requests_get links_file_lines spaces w.
Arguments is_p {tag} name e.
Arguments running_header {tag} name get_text h pre.

(** ** Vocabulary of the statements *)

(** Every identifier of the mapping is a string: no resolved page lacked the
    attribute. *)
Definition identifiers_are_strings (mapping : mapping_t) : Prop :=
  Forall (fun kv => snd kv <> None) mapping.

(** The entries the scan passes over before it stops at a match: string
    identifiers that do not occur in [u]. *)
Definition passed_over (u : string) (entries : mapping_t) : Prop :=
  Forall (fun kv => exists s, snd kv = Some s /\ contains s u = false) entries.

(** The record after lines 68-69 stopped at the entry of key [key]. *)
Definition rewritten (d : dict json) (u key : string) : json :=
  JObject (dict_set "url" (JString key) (dict_set "internal_url" (JString u) d)).

(** The record written at line 79: the four fields, in this order. *)
Definition cleaned_record (title : json) (u key : string) (paragraphs : json) : json :=
  JObject [("title", title); ("internal_url", JString u); ("url", JString key);
           ("paragraphs", paragraphs)].

(** [m'] keeps the keys of [m] in their order, adds keys only at the end,
    and keeps the identifier of every key outside [urls]. *)
Definition grows (urls : list string) (m m' : mapping_t) : Prop :=
  (exists added, keys m' = keys m ++ added) /\
  (forall k v, dict_get k m = Some v -> ~ In k urls -> dict_get k m' = Some v).

Definition is_json_name (entry : string * file_content) : bool :=
  endswith ".json" (fst entry).

Definition is_skip_message (e : event) : bool :=
  match e with
  | PrintSkipping _ => true
  | _ => false
  end.

Definition without_skip_messages (out : list event) : list event :=
  filter (fun e => negb (is_skip_message e)) out.

(** What an iteration for a [.json] name does to the state it is given. *)
Inductive effect : Type :=
| ERaise (e : exn)
| EContinue
| EWrite (data url : json)
| EFail (url : json).

Definition run_effect (filename : string) (eff : effect) (st : cleaner_state)
  : result cleaner_state :=
  match eff with
  | ERaise e => raise e
  | EContinue => ok st
  | EWrite data url => ok (write_good filename data url st)
  | EFail url => ok (append_failed url st)
  end.

(** Two states that agree except for the skip messages on the console. *)
Definition agree (st1 st2 : cleaner_state) : Prop :=
  written st1 = written st2 /\ good_mappings st1 = good_mappings st2 /\
  failed_mappings st1 = failed_mappings st2 /\
  without_skip_messages (stdout st1) = stdout st2.

(** ** Inputs of the scenarios *)

Definition scenario_mapping : mapping_t :=
  [("https://kb/x/a", Some "123"); ("https://kb/x/b", Some "456")].

Definition page_a : dict json :=
  [("title", JString "Page A"); ("url", JString "https://old/path/123");
   ("paragraphs", JArray [])].

Definition page_z : dict json :=
  [("title", JString "Page Z"); ("url", JString "https://old/path/999");
   ("paragraphs", JArray [])].

Definition mapping_123 : mapping_t := [("https://kb/x/123", Some "123")].

Definition page_123 : dict json :=
  [("title", JString "Page A"); ("url", JString "https://old/path/123");
   ("paragraphs", JArray [])].

(** What a first run with [mapping_123] writes for [page_123]. *)
Definition cleaned_123 : dict json :=
  [("title", JString "Page A"); ("internal_url", JString "https://old/path/123");
   ("url", JString "https://kb/x/123"); ("paragraphs", JArray [])].

Definition forward_matched : dict json :=
  [("title", JString "Forward to Page A"); ("url", JString "https://old/path/123");
   ("paragraphs", JArray [])].

Definition forward_unmatched : dict json :=
  [("title", JString "Forward to nowhere"); ("url", JString "https://old/path/999");
   ("paragraphs", JArray [])].

Definition mixed_folder : listing :=
  [("fwd.json", Json (JObject forward_matched));
   ("notes.txt", Malformed);
   ("fwd2.json", Json (JObject forward_unmatched));
   ("page_a.json", Json (JObject page_a))].

(** [s] between double quotes. *)
Definition q (s : string) : string := (String dquote s ++ String dquote "")%string.

(** Three anchors: two to the same page of the zmp space, one elsewhere. *)
Definition sample_html : string :=
  ("<a href=" ++ q "/zmp/a" ++ ">A</a><a href=" ++ q "/other/b" ++
   ">B</a><a class=" ++ q "x" ++ " href=" ++ q "/zmp/a" ++ ">A</a>")%string.

(** ** A toy parser and network, to run the section's functions *)

Module Toy.

(** A document is the list of its elements, each a name and its text; the
    parser knows one page. *)
Definition tag : Type := (string * string)%type.
Definition soup : Type := list tag.

Definition page : soup :=
  [("p", "intro"); ("h1", "Setup"); ("div", "box"); ("p", "step one");
   ("h2", "Details"); ("p", "step two")].

Definition BeautifulSoup (html : string) : soup :=
  if (html =? "page")%string then page else [("html", html)].

Definition find_all (s : soup) : list tag := s.
Definition name (t : tag) : string := fst t.
Definition get_text (t : tag) : string := snd t.
Definition title_tag (s : soup) : option tag :=
  find (fun t => (fst t =? "title")%string) s.
Definition string_of (t : tag) : option string := Some (snd t).

(** The network answers a url with a page whose root carries, as page id,
    the last segment of that url. *)
Definition requests_get (url : string) (w : unit) : unit * result string :=
  match current_page_id_of url with
  | Some id => (w, ok id)
  | None => (w, raise RequestException)
  end.

Definition find_html_no_js (s : soup) : option tag :=
  find (fun t => (fst t =? "html")%string) s.
Definition get_attr (t : tag) (key : string) : option string :=
  if (key =? "data-vp-page-id")%string then Some (snd t) else None.

Definition links_file_lines (urls : list string) : list string := urls.

Definition zmp : space :=
  mk_space ("<a href=" ++ q "/zmp/41" ++ ">A</a>")%string "zmp"
    [("a.json", Json (JObject [("title", JString "A");
                               ("url", JString "https://old/zmp/41");
                               ("paragraphs", JArray [])]))].

(** The record of the second space bears the page id resolved for the first. *)
Definition gswz : space :=
  mk_space ("<a href=" ++ q "/gswz/77" ++ ">B</a>")%string "gswz"
    [("b.json", Json (JObject [("title", JString "B");
                               ("url", JString "https://old/gswz/41");
                               ("paragraphs", JArray [])]))].

(** The script on the two spaces, from the empty mapping. *)
Definition script :=
  main BeautifulSoup find_html_no_js get_attr requests_get links_file_lines
    [zmp; gswz] tt.

End Toy.

(** ** [sanitize_for_filename] ([src/utils.py]) *)

(** The characters of the class of the pattern: backslash, slash, colon,
    star, question mark, double quote, less than, greater than, bar. *)
Definition filename_unsafe : string :=
  ("\/:*?" ++ String dquote "<>|")%string.

(** [re.sub] with a class of single characters and the replacement [_]:
    every character of the class becomes an underscore. *)
Fixpoint sanitize_for_filename (original_string : string) : string :=
  match original_string with
  | EmptyString => EmptyString
  | String c s =>
      String (if mem_char c filename_unsafe then "_"%char else c)
             (sanitize_for_filename s)
  end.

(** ** The links file: [save_urls_to_file], [find_links_in_html] and the
    read of lines 117-118 *)

Definition LF : ascii := "010"%char.
Definition CR : ascii := "013"%char.

(** [file.writelines(f"{url}\n" for url in urls)]: the text of the file. *)
Fixpoint save_urls_to_file (urls : list string) : string :=
  match urls with
  | [] => EmptyString
  | url :: urls' => (url ++ String LF (save_urls_to_file urls'))%string
  end.

(** [find_links_in_html] on the text of the input file: the text it leaves
    in the output file. *)
Definition find_links_in_html (base_url text url_subdir : string) : string :=
  save_urls_to_file (extract_href_urls base_url text url_subdir).

(** What [f.read()] returns for a file opened in text mode with the default
    [newline]: a carriage return, alone or before a line feed, reads as a
    line feed. *)
Fixpoint universal_newlines (s : string) : string :=
  match s with
  | EmptyString => EmptyString
  | String c s' =>
      if Ascii.eqb c CR then
        String LF match s' with
                  | String c' s'' =>
                      if Ascii.eqb c' LF then universal_newlines s''
                      else universal_newlines s'
                  | EmptyString => EmptyString
                  end
      else String c (universal_newlines s')
  end.

(** The line boundaries of [str.splitlines] among the code points below 256:
    LF, VT, FF, CR, FS, GS, RS and NEL. *)
Definition is_line_boundary (c : ascii) : bool :=
  let n := nat_of_ascii c in
  (((10 <=? n) && (n <=? 13)) || ((28 <=? n) && (n <=? 30)) || (n =? 133))%nat.

(** [s.splitlines()] from the line read so far: a line ends at a boundary,
    CR LF counting as one, and a last line without boundary is kept unless
    it is empty. *)
Fixpoint splitlines_from (line s : string) : list string :=
  match s with
  | EmptyString => if (line =? "")%string then [] else [line]
  | String c s' =>
      if is_line_boundary c then
        line :: match s' with
                | String c' s'' =>
                    if Ascii.eqb c CR && Ascii.eqb c' LF then splitlines_from "" s''
                    else splitlines_from "" s'
                | EmptyString => []
                end
      else splitlines_from (line ++ String c "") s'
  end.

Definition splitlines (s : string) : list string := splitlines_from "" s.

(** Lines 117-118: [f.read().splitlines()] on the text of the links file. *)
Definition read_links_file (content : string) : list string :=
  splitlines (universal_newlines content).

(** No character of [s] is a line boundary. *)
Fixpoint single_line (s : string) : bool :=
  match s with
  | EmptyString => true
  | String c s' => negb (is_line_boundary c) && single_line s'
  end.

(** ** Vocabulary of the further properties *)

(** The [.json] records whose page id equals an identifier and whose title
    starts with the redirect prefix: an iteration that returns for one of
    them took the [continue] of line 73. *)
Definition is_matched_redirect (mapping : mapping_t) (entry : string * file_content)
  : bool :=
  endswith ".json" (fst entry) &&
  match snd entry with
  | Json (JObject d) =>
      match dict_get "url" d, dict_get "title" d with
      | Some (JString u), Some (JString t) =>
          match current_page_id_of u with
          | Some pid =>
              existsb (fun p => page_id_eqb p pid) (values mapping) &&
              startswith "Forward to" t
          | None => false
          end
      | _, _ => false
      end
  | _ => false
  end.


(** A network like [Toy]'s in which one page cannot be fetched and another
    has no root element of the expected class. *)
Module Flaky.

Definition requests_get (url : string) (w : nat) : nat * result string :=
  if (url =? "https://kb/zmp/down")%string then (S w, raise RequestException)
  else if (url =? "https://kb/zmp/plain")%string then (S w, ok "page")
  else (S w, snd (Toy.requests_get url tt)).

End Flaky.

(** The succeeded list against the output folder: entry by entry, the url
    of the file written, which is a key of the mapping. *)
Definition mirrors (mapping : mapping_t) (file : string * json) (g : json) : Prop :=
  exists key, g = JString key /\ In key (keys mapping) /\
              getitem (snd file) "url" = ok g.

(** ** [write_html_2_file] ([src/utils.py]) *)

(** [sep.join(items)] *)
Fixpoint join (sep : string) (items : list string) : string :=
  match items with
  | [] => EmptyString
  | [item] => item
  | item :: items' => (item ++ sep ++ join sep items')%string
  end.

(** [s.replace(old, new)] for an empty [old]: [new] before every character
    and at the end. *)
Fixpoint intersperse (new s : string) : string :=
  match s with
  | EmptyString => new
  | String c s' => (new ++ String c (intersperse new s'))%string
  end.

(** [s.replace(old, new)] for [old] made of [a] and [old']: the leftmost
    occurrences that do not overlap, each replaced by [new]. *)
Equations replace_occurrences (a : ascii) (old' new s : string) : string
  by wf (String.length s) lt :=
replace_occurrences a old' new EmptyString := EmptyString;
replace_occurrences a old' new (String c s')
  with inspect (strip_prefix (String a old') (String c s')) := {
  | exist _ (Some rest) _ => (new ++ replace_occurrences a old' new rest)%string
  | exist _ None _ => String c (replace_occurrences a old' new s') }.
Next Obligation.
  cbn [strip_prefix] in e. destruct (Ascii.eqb a c); [|discriminate].
  assert (Hp : forall p s tail, strip_prefix p s = Some tail ->
                                String.length tail <= String.length s).
  { induction p as [|x p IH]; simpl; intros s tail H.
    - inversion H; lia.
    - destruct s as [|y s]; [discriminate|].
      destruct (Ascii.eqb x y); [|discriminate].
      apply IH in H. simpl. lia. }
  apply Hp in e. lia.
Qed.

Definition str_replace (old new s : string) : string :=
  match old with
  | EmptyString => intersperse new s
  | String a old' => replace_occurrences a old' new s
  end.

(** [c.isspace()], which is what [\s] matches in a [str] pattern, on code
    points below 256. *)
Definition isspace (c : ascii) : bool :=
  let n := nat_of_ascii c in
  (((9 <=? n) && (n <=? 13)) || ((28 <=? n) && (n <=? 32)) || (n =? 133) || (n =? 160))%nat.

(** [\s*]: the text after the leading white space. *)
Fixpoint skip_spaces (s : string) : string :=
  match s with
  | EmptyString => EmptyString
  | String c s' => if isspace c then skip_spaces s' else s
  end.

(** The lower case of an ASCII letter; other characters as they are. *)
Definition ascii_lower (c : ascii) : ascii :=
  let n := nat_of_ascii c in
  if ((65 <=? n) && (n <=? 90))%nat then ascii_of_nat (n + 32) else c.

(** A literal of the pattern under [re.IGNORECASE], anchored at the start
    of [s]: the text after it. *)
Fixpoint strip_prefix_ignorecase (p s : string) : option string :=
  match p, s with
  | EmptyString, _ => Some s
  | String a p', String b s' =>
      if Ascii.eqb (ascii_lower a) (ascii_lower b) then strip_prefix_ignorecase p' s'
      else None
  | String _ _, EmptyString => None
  end.

(** The pattern of line 110 for [placeholder], anchored at the start of
    [s]: an opening brace and percent sign, white space, the placeholder in
    any case, white space, a percent sign and closing brace. The text after
    the match. No literal of the pattern starts with white space, so the
    greedy [\s*] never gives back. *)
Definition match_placeholder (placeholder s : string) : option string :=
  match strip_prefix "{%" s with
  | Some s1 =>
      match strip_prefix_ignorecase placeholder (skip_spaces s1) with
      | Some s2 => strip_prefix "%}" (skip_spaces s2)
      | None => None
      end
  | None => None
  end.

(** [re.sub(pattern, repl, s)] once [repl] is expanded to the text [text]:
    every leftmost non-overlapping match becomes [text]. *)
Equations substitute (placeholder text s : string) : string
  by wf (String.length s) lt :=
substitute placeholder text EmptyString := EmptyString;
substitute placeholder text (String c s')
  with inspect (match_placeholder placeholder (String c s')) := {
  | exist _ (Some rest) _ => (text ++ substitute placeholder text rest)%string
  | exist _ None _ => String c (substitute placeholder text s') }.
Next Obligation.
  assert (Hp : forall p s tail, strip_prefix p s = Some tail ->
                                String.length tail + String.length p = String.length s).
  { induction p as [|x p IH]; simpl; intros s tail H.
    - inversion H; lia.
    - destruct s as [|y s]; [discriminate|].
      destruct (Ascii.eqb x y); [|discriminate].
      apply IH in H. simpl. lia. }
  assert (Hs : forall s, String.length (skip_spaces s) <= String.length s).
  { induction s as [|x s IH]; simpl; [lia|]. destruct (isspace x); simpl; lia. }
  assert (Hi : forall p s tail, strip_prefix_ignorecase p s = Some tail ->
                                String.length tail <= String.length s).
  { induction p as [|x p IH]; simpl; intros s tail H.
    - inversion H; lia.
    - destruct s as [|y s]; [discriminate|].
      destruct (Ascii.eqb _ _); [|discriminate]. apply IH in H. simpl. lia. }
  unfold match_placeholder in e.
  destruct (strip_prefix "{%" (String c s')) as [s1|] eqn:E1; [|discriminate].
  destruct (strip_prefix_ignorecase placeholder (skip_spaces s1)) as [s2|] eqn:E2;
    [|discriminate].
  apply Hp in E1. apply Hi in E2. apply Hp in e.
  pose proof (Hs s1). pose proof (Hs s2). simpl String.length in *. lia.
Qed.

(** [replacement.replace("\\", "\\\\")]: every backslash doubled. *)
Definition double_backslashes (replacement : string) : string :=
  str_replace "\" "\\" replacement.

(** How [re.sub] reads a replacement: a doubled backslash stands for one
    backslash and any other character for itself. [None] stands for the
    other escapes, a backslash before anything else or at the end (group
    references, character escapes or errors): after line 113 every backslash
    is doubled and none of them occurs. *)
Fixpoint expand_template (repl : string) : option string :=
  match repl with
  | EmptyString => Some EmptyString
  | String c repl' =>
      if Ascii.eqb c "\" then
        match repl' with
        | String c' repl'' =>
            if Ascii.eqb c' "\" then option_map (String "\"%char) (expand_template repl'')
            else None
        | EmptyString => None
        end
      else option_map (String c) (expand_template repl')
  end.

(** One pass of the loop of lines 109-116. *)
Definition fill_placeholder (placeholder replacement html_content : string)
  : option string :=
  match expand_template (double_backslashes replacement) with
  | Some text => Some (substitute placeholder text html_content)
  | None => None
  end.

(** Lines 104-116: the three passes, in the order of the dictionary. *)
Definition fill_template (title content html_template : string)
    (additional_headers : option (list string)) : option string :=
  let additional_html_headers :=
    match additional_headers with
    | Some (h :: hs) => join (String LF (String "009"%char EmptyString)) (h :: hs)
    | _ => EmptyString
    end in
  match fill_placeholder "title" title html_template with
  | Some html1 =>
      match fill_placeholder "content" content html1 with
      | Some html2 => fill_placeholder "additional_headers" additional_html_headers html2
      | None => None
      end
  | None => None
  end.

(** Line 122. *)
Definition json_path (path : string) : string := str_replace ".html" ".json" path.

Section WriteHtml2File.

Variables soup tag : Type.
Variable BeautifulSoup : string -> soup.
Variable find_all : soup -> list tag.
Variable name : tag -> string.
Variable get_text : tag -> string.
Variable title_tag : soup -> option tag.
Variable string_of : tag -> option string.

(** [write_html_2_file]: the path [write_json] is called with and the
    dictionary it writes there. *)
Definition write_html_2_file (path title content html_template web_url : string)
    (additional_headers : option (list string)) : option (string * json) :=
  match fill_template title content html_template additional_headers with
  | Some html_content =>
      Some (json_path path,
            extract_content BeautifulSoup find_all name get_text title_tag string_of
              html_content web_url)
  | None => None
  end.

End WriteHtml2File.

Arguments write_html_2_file {soup tag} BeautifulSoup find_all name get_text title_tag
  string_of path title content html_template web_url additional_headers.

(** * Properties *)

(** ** Strings *)

Section StringFacts.

Local Open Scope string_scope.

Lemma append_nil_r (s : string) : s ++ "" = s.
Proof. induction s as [|c s IH]; simpl; [reflexivity | now rewrite IH]. Qed.

Lemma append_assoc (a b c : string) : (a ++ b) ++ c = a ++ b ++ c.
Proof. induction a as [|x a IH]; simpl; [reflexivity | now rewrite IH]. Qed.

Lemma prefix_iff (p s : string) :
  String.prefix p s = true <-> exists t, s = p ++ t.
Proof.
  revert s; induction p as [|a p IH]; intros s.
  - destruct s; simpl; split; intros _; eauto.
  - destruct s as [|b s]; simpl.
    + split; [discriminate | intros [t H]; discriminate].
    + destruct (ascii_dec a b) as [->|Hne].
      * rewrite IH. split; intros [t H]; exists t; [now subst | now inversion H].
      * split; [discriminate | intros [t H]; inversion H; congruence].
Qed.

Lemma startswith_iff (p s : string) :
  startswith p s = true <-> exists t, s = p ++ t.
Proof. apply prefix_iff. Qed.

Lemma contains_iff (v s : string) :
  contains v s = true <-> exists a b, s = a ++ v ++ b.
Proof.
  split.
  - induction s as [|c s IH]; cbn [contains]; rewrite orb_true_iff; intros [H|H].
    + apply prefix_iff in H as [t H]. now exists "", t.
    + discriminate.
    + apply prefix_iff in H as [t H]. now exists "", t.
    + destruct (IH H) as (a & b & ->). now exists (String c a), b.
  - intros (a & b & ->). induction a as [|c a IH].
    + cbn [append]. destruct (v ++ b) eqn:E; cbn [contains];
        rewrite orb_true_iff; left; apply prefix_iff; exists b; now rewrite E.
    + cbn [append contains]. rewrite IH. apply orb_true_r.
Qed.

Lemma rstrip_prefix (chars s : string) : exists t, s = rstrip chars s ++ t.
Proof.
  induction s as [|c s [t IH]]; simpl.
  - now exists "".
  - destruct (rstrip chars s) as [|a r].
    + destruct (mem_char c chars).
      * now exists (String c s).
      * exists t. simpl in *. now rewrite IH at 1.
    + exists t. simpl in *. now rewrite IH at 1.
Qed.

Lemma split_nonempty (sep : ascii) (s : string) : split sep s <> [].
Proof.
  destruct s as [|c s]; simpl; [discriminate|].
  destruct (Ascii.eqb c sep); [discriminate|].
  destruct (split sep s); discriminate.
Qed.

Lemma split_single (sep : ascii) (s x : string) :
  split sep s = [x] -> s = x /\ mem_char sep s = false.
Proof.
  revert x; induction s as [|c s IH]; simpl; intros x H.
  - inversion H; auto.
  - destruct (Ascii.eqb c sep) eqn:E.
    + injection H as _ H1. now apply split_nonempty in H1.
    + destruct (split sep s) as [|seg segs] eqn:Es; [now apply split_nonempty in Es|].
      inversion H; subst. destruct (IH _ eq_refl) as [-> Hm].
      rewrite Ascii.eqb_sym, E, Hm. auto.
Qed.

Lemma split_no_sep (sep : ascii) (s : string) :
  mem_char sep s = false -> split sep s = [s].
Proof.
  induction s as [|c s IH]; simpl; [reflexivity|].
  rewrite orb_false_iff, Ascii.eqb_sym. intros [-> H]. now rewrite (IH H).
Qed.

Lemma last_item_cons {A} (x : A) (l : list A) :
  l <> [] -> last_item (x :: l) = last_item l.
Proof. destruct l; [congruence | reflexivity]. Qed.

(** The last segment of a split: a tail of the string without separator,
    preceded by nothing or by a text that ends with the separator. *)
Lemma split_last (sep : ascii) (s : string) :
  exists pre seg,
    last_item (split sep s) = Some seg /\ s = pre ++ seg /\
    mem_char sep seg = false /\
    (pre = "" \/ exists p, pre = p ++ String sep "").
Proof.
  induction s as [|c s (pre & seg & Hl & Hs & Hn & Hp)].
  - exists "", "". simpl. auto.
  - simpl. destruct (Ascii.eqb c sep) eqn:E.
    + apply Ascii.eqb_eq in E; subst c.
      exists (String sep pre), seg.
      rewrite last_item_cons by apply split_nonempty.
      repeat split; auto; [now rewrite Hs at 1|].
      right. destruct Hp as [->|[p ->]]; [now exists "" | now exists (String sep p)].
    + destruct (split sep s) as [|seg0 segs] eqn:Es; [now apply split_nonempty in Es|].
      destruct segs as [|seg1 segs].
      * apply split_single in Es as [<- Hm].
        exists "", (String c s). simpl. rewrite Ascii.eqb_sym, E, Hm. auto.
      * exists (String c pre), seg. repeat split; auto; [simpl; now rewrite Hs at 1|].
        right. destruct Hp as [->|[p ->]]; [|now exists (String c p)].
        simpl in Hs; subst seg. rewrite (split_no_sep _ _ Hn) in Es. discriminate.
Qed.

Lemma current_page_id_shape (u : string) :
  exists pre pid,
    current_page_id_of u = Some pid /\ rstrip "/" u = pre ++ pid /\
    mem_char "/" pid = false /\ (pre = "" \/ exists p, pre = p ++ "/").
Proof. unfold current_page_id_of. apply split_last. Qed.

(** The derived page id occurs in the url it was derived from. *)
Lemma current_page_id_in_url (u pid : string) :
  current_page_id_of u = Some pid -> contains pid u = true.
Proof.
  intros H. destruct (current_page_id_shape u) as (pre & pid' & H' & Hr & _).
  rewrite H in H'; inversion H'; subst pid'.
  destruct (rstrip_prefix "/" u) as [t Ht].
  apply contains_iff. exists pre, t. rewrite Ht at 1. rewrite Hr. apply append_assoc.
Qed.

End StringFacts.

(** ** Dictionaries *)

Section DictFacts.

Context {V : Type}.

Lemma dict_get_set_same (k : string) (v : V) (d : dict V) :
  dict_get k (dict_set k v d) = Some v.
Proof.
  induction d as [|[k' v'] d IH]; simpl.
  - now rewrite String.eqb_refl.
  - destruct (k' =? k)%string eqn:E; simpl; rewrite E; auto.
Qed.

Lemma dict_get_set_other (k k' : string) (v : V) (d : dict V) :
  k <> k' -> dict_get k' (dict_set k v d) = dict_get k' d.
Proof.
  intros Hne. induction d as [|[k0 v0] d IH]; simpl.
  - apply String.eqb_neq in Hne. now rewrite Hne.
  - destruct (k0 =? k)%string eqn:E; simpl.
    + apply String.eqb_eq in E; subst k0.
      apply String.eqb_neq in Hne. now rewrite Hne.
    + now rewrite IH.
Qed.

(** Assignment keeps the keys already present, in their order, and appends
    a new key at the end. *)
Lemma keys_dict_set (k : string) (v : V) (d : dict V) :
  keys (dict_set k v d) = if existsb (String.eqb k) (keys d) then keys d else keys d ++ [k].
Proof.
  induction d as [|[k0 v0] d IH]; simpl; [reflexivity|].
  rewrite (String.eqb_sym k k0).
  destruct (k0 =? k)%string; simpl; [reflexivity|].
  unfold keys in *. rewrite IH. now destruct (existsb (String.eqb k) (map fst d)).
Qed.

Lemma existsb_eqb_In (k : string) (l : list string) :
  existsb (String.eqb k) l = true <-> In k l.
Proof.
  rewrite existsb_exists. split.
  - intros (x & Hx & E). apply String.eqb_eq in E. now subst.
  - intros H. exists k. split; [assumption | apply String.eqb_refl].
Qed.

Lemma dict_get_In_keys (k : string) (d : dict V) :
  dict_get k d <> None <-> In k (keys d).
Proof.
  induction d as [|[k0 v0] d IH]; simpl; [tauto|].
  destruct (k0 =? k)%string eqn:E.
  - apply String.eqb_eq in E. split; [auto | discriminate].
  - apply String.eqb_neq in E. rewrite IH. tauto.
Qed.

End DictFacts.

(** ** The scan of the mapping (lines 65-70) *)

Section Scan.

Lemma membership_test (mapping : mapping_t) (pid : string) :
  existsb (fun p => page_id_eqb p pid) (values mapping) = true <->
  In (Some pid) (values mapping).
Proof.
  rewrite existsb_exists. split.
  - intros ([s|] & Hin & E); simpl in E; [|discriminate].
    apply String.eqb_eq in E. now subst.
  - intros H. exists (Some pid). split; [assumption | apply String.eqb_refl].
Qed.

Lemma rewrite_url_at_first_match (pre post : mapping_t) (key v u : string) (d : dict json) :
  passed_over u pre -> contains v u = true ->
  rewrite_url (pre ++ (key, Some v) :: post) u (JObject d) = ok (rewritten d u key).
Proof.
  intros Hpre Hv. induction Hpre as [|[k p] pre (s & Hs & Hc) _ IH]; simpl.
  - now rewrite Hv.
  - simpl in Hs; subst p. simpl. now rewrite Hc.
Qed.

Lemma rewrite_url_at_None (pre post : mapping_t) (key u : string) (data : json) :
  passed_over u pre ->
  rewrite_url (pre ++ (key, None) :: post) u data = raise TypeError.
Proof.
  intros Hpre. induction Hpre as [|[k p] pre (s & Hs & Hc) _ IH]; simpl.
  - reflexivity.
  - simpl in Hs; subst p. simpl. now rewrite Hc.
Qed.

Lemma rewrite_url_no_match (mapping : mapping_t) (u : string) (data : json) :
  passed_over u mapping -> rewrite_url mapping u data = ok data.
Proof.
  intros H. induction H as [|[k p] pre (s & Hs & Hc) _ IH]; simpl.
  - reflexivity.
  - simpl in Hs; subst p. simpl. now rewrite Hc.
Qed.

(** Where the scan stops: at the first entry whose identifier occurs in
    [u], at a [None] met before any such entry, or at the end. *)
Lemma scan_cases (mapping : mapping_t) (u : string) :
  passed_over u mapping \/
  (exists pre key post, mapping = pre ++ (key, None) :: post /\ passed_over u pre) \/
  (exists pre key v post,
      mapping = pre ++ (key, Some v) :: post /\ passed_over u pre /\
      contains v u = true).
Proof.
  induction mapping as [|[k p] mapping IH].
  - left. constructor.
  - destruct p as [s|].
    + destruct (contains s u) eqn:E.
      * right; right. exists [], k, s, mapping. repeat split; [constructor | assumption].
      * assert (Hk : exists s0, snd (k, Some s) = Some s0 /\ contains s0 u = false)
          by (exists s; auto).
        destruct IH as [H | [(pre & key & post & -> & H) | (pre & key & v & post & -> & H & Hv)]].
        -- left. now constructor.
        -- right; left. exists ((k, Some s) :: pre), key, post.
           split; [reflexivity | now constructor].
        -- right; right. exists ((k, Some s) :: pre), key, v, post.
           repeat split; [now constructor | assumption].
    + right; left. exists [], k, mapping. split; [reflexivity | constructor].
Qed.

Lemma passed_over_In (u : string) (entries : mapping_t) (s : string) :
  passed_over u entries -> In (Some s) (values entries) -> contains s u = false.
Proof.
  intros H Hin. unfold values in Hin. apply in_map_iff in Hin as ([k p] & E & Hin).
  simpl in E; subst p. unfold passed_over in H. rewrite Forall_forall in H.
  destruct (H _ Hin) as (s' & E & Hc). simpl in E. now inversion E; subst.
Qed.

(** When the membership test of line 65 passes, the scan of lines 66-70
    cannot reach the end of the mapping: the identifier that equals the
    page id occurs in the url. *)
Lemma membership_excludes_no_match (mapping : mapping_t) (u pid : string) :
  current_page_id_of u = Some pid -> In (Some pid) (values mapping) ->
  ~ passed_over u mapping.
Proof.
  intros Hpid Hin H. apply current_page_id_in_url in Hpid.
  rewrite (passed_over_In _ _ _ H Hin) in Hpid. discriminate.
Qed.

Lemma first_match_exists (mapping : mapping_t) (u pid : string) :
  current_page_id_of u = Some pid -> In (Some pid) (values mapping) ->
  identifiers_are_strings mapping ->
  exists pre key v post,
    mapping = pre ++ (key, Some v) :: post /\ passed_over u pre /\ contains v u = true.
Proof.
  intros Hpid Hin Hstr.
  destruct (scan_cases mapping u) as [H | [(pre & key & post & E & H) | H]].
  - now apply membership_excludes_no_match with (pid := pid) in H.
  - exfalso. unfold identifiers_are_strings in Hstr. rewrite Forall_forall in Hstr.
    apply (Hstr (key, None)); [|reflexivity]. rewrite E. apply in_elt.
  - exact H.
Qed.

End Scan.

(** ** One iteration of [clean_export_data] *)

Section ProcessFile.

Lemma getitem_rewritten_title (d : dict json) (u key : string) :
  getitem (rewritten d u key) "title" = getitem (JObject d) "title".
Proof.
  unfold rewritten, getitem. now rewrite !dict_get_set_other by discriminate.
Qed.

Lemma comprehension_rewritten (d : dict json) (u key : string) (title ps : json) :
  dict_get "title" d = Some title -> dict_get "paragraphs" d = Some ps ->
  dict_comprehension (rewritten d u key) cleaned_fields [] =
  ok [("title", title); ("internal_url", JString u); ("url", JString key);
      ("paragraphs", ps)].
Proof.
  intros Ht Hp. unfold rewritten, cleaned_fields. cbn [dict_comprehension getitem].
  rewrite !(dict_get_set_other "url" "title"), !(dict_get_set_other "internal_url" "title"),
    !(dict_get_set_other "url" "internal_url"), !(dict_get_set_other "url" "paragraphs"),
    !(dict_get_set_other "internal_url" "paragraphs") by discriminate.
  rewrite !dict_get_set_same, Ht, Hp. reflexivity.
Qed.

Lemma comprehension_missing_paragraphs (d : dict json) (u key : string) (title : json) :
  dict_get "title" d = Some title -> dict_get "paragraphs" d = None ->
  dict_comprehension (rewritten d u key) cleaned_fields [] = raise (KeyError "paragraphs").
Proof.
  intros Ht Hp. unfold rewritten, cleaned_fields. cbn [dict_comprehension getitem].
  rewrite !(dict_get_set_other "url" "title"), !(dict_get_set_other "internal_url" "title"),
    !(dict_get_set_other "url" "internal_url"), !(dict_get_set_other "url" "paragraphs"),
    !(dict_get_set_other "internal_url" "paragraphs") by discriminate.
  rewrite !dict_get_set_same, Ht, Hp. reflexivity.
Qed.

(** The iteration up to the membership test, for a record whose [url] is a
    string. *)
Lemma process_file_json (mapping : mapping_t) (filename : string) (d : dict json)
    (u pid : string) (st : cleaner_state) :
  endswith ".json" filename = true ->
  dict_get "url" d = Some (JString u) ->
  current_page_id_of u = Some pid ->
  process_file mapping filename (Json (JObject d)) st =
  if existsb (fun p => page_id_eqb p pid) (values mapping) then
    data <- rewrite_url mapping u (JObject d) ;;
    title <- getitem data "title" ;;
    t <- as_str title ;;
    if startswith "Forward to" t then ok st
    else
      fields <- dict_comprehension data cleaned_fields [] ;;
      new_url <- getitem (JObject fields) "url" ;;
      ok (write_good filename (JObject fields) new_url st)
  else ok (append_failed (JString u) st).
Proof.
  intros Hf Hu Hp. unfold process_file. rewrite Hf. cbn [negb json_load bind ok getitem].
  rewrite Hu. cbn [as_str bind ok]. rewrite Hp.
  destruct (existsb _ (values mapping)); reflexivity.
Qed.

(** A matched record whose title is a string: skipped when the title starts
    with the redirect prefix, written with the four fields otherwise. *)
Lemma process_file_matched (pre post : mapping_t) (key v : string)
    (filename : string) (d : dict json) (u pid t : string) (st : cleaner_state) :
  endswith ".json" filename = true ->
  dict_get "url" d = Some (JString u) ->
  current_page_id_of u = Some pid ->
  In (Some pid) (values (pre ++ (key, Some v) :: post)) ->
  passed_over u pre -> contains v u = true ->
  dict_get "title" d = Some (JString t) ->
  process_file (pre ++ (key, Some v) :: post) filename (Json (JObject d)) st =
  if startswith "Forward to" t then ok st
  else match dict_get "paragraphs" d with
       | Some ps =>
           ok (write_good filename (cleaned_record (JString t) u key ps) (JString key) st)
       | None => raise (KeyError "paragraphs")
       end.
Proof.
  intros Hf Hu Hp Hin Hpre Hv Ht.
  rewrite (process_file_json _ _ _ _ _ _ Hf Hu Hp).
  apply membership_test in Hin. rewrite Hin.
  rewrite (rewrite_url_at_first_match _ _ _ _ _ _ Hpre Hv). cbn [bind ok].
  rewrite getitem_rewritten_title. cbn [getitem]. rewrite Ht. cbn [bind ok as_str].
  destruct (startswith "Forward to" t); [reflexivity|].
  destruct (dict_get "paragraphs" d) as [ps|] eqn:Hps.
  - rewrite (comprehension_rewritten _ _ _ _ _ Ht Hps). reflexivity.
  - rewrite (comprehension_missing_paragraphs _ _ _ _ Ht Hps). reflexivity.
Qed.

End ProcessFile.

(** ** The reconciliation claims *)

(** C1. For a [.json] record whose derived page id equals some identifier of
    the mapping, the scan of the mapping in insertion order stops at the
    first entry whose identifier occurs in the record's url; there
    [internal_url] becomes the original url and [url] the key of that entry,
    and a record with a title outside the redirect prefix is written with
    these values and its new url appended to the succeeded list. The
    scenario of the specification evaluates to the record and lists it gives. *)
Theorem C1_first_substring_entry_rewrites_url :
  (forall (mapping : mapping_t) (filename : string) (d : dict json)
          (u pid t : string) (ps : json) (st : cleaner_state),
      identifiers_are_strings mapping ->
      endswith ".json" filename = true ->
      dict_get "url" d = Some (JString u) ->
      current_page_id_of u = Some pid ->
      In (Some pid) (values mapping) ->
      exists pre key v post,
        mapping = pre ++ (key, Some v) :: post /\
        passed_over u pre /\ contains v u = true /\
        rewrite_url mapping u (JObject d) = ok (rewritten d u key) /\
        getitem (rewritten d u key) "internal_url" = ok (JString u) /\
        getitem (rewritten d u key) "url" = ok (JString key) /\
        (dict_get "title" d = Some (JString t) ->
         startswith "Forward to" t = false ->
         dict_get "paragraphs" d = Some ps ->
         process_file mapping filename (Json (JObject d)) st =
         ok (write_good filename (cleaned_record (JString t) u key ps) (JString key) st)))
  /\
  clean_export_data scenario_mapping [("page_a.json", Json (JObject page_a))] =
  (mk_state
     [("page_a.json",
       JObject [("title", JString "Page A");
                ("internal_url", JString "https://old/path/123");
                ("url", JString "https://kb/x/a");
                ("paragraphs", JArray [])])]
     [JString "https://kb/x/a"] []
     [PrintRatio 1 1; PrintSampleGood [JString "https://kb/x/a"]; PrintSampleFailed []],
   None).
Proof.
  split; [|reflexivity].
  intros mapping filename d u pid t ps st Hstr Hf Hu Hp Hin.
  destruct (first_match_exists _ _ _ Hp Hin Hstr) as (pre & key & v & post & E & Hpre & Hv).
  exists pre, key, v, post. subst mapping.
  repeat split; try assumption.
  - now apply rewrite_url_at_first_match.
  - unfold rewritten, getitem.
    rewrite (dict_get_set_other "url" "internal_url") by discriminate.
    now rewrite dict_get_set_same.
  - unfold rewritten, getitem. now rewrite dict_get_set_same.
  - intros Ht Hfw Hps.
    rewrite (process_file_matched _ _ _ _ _ _ _ _ _ _ Hf Hu Hp Hin Hpre Hv Ht).
    now rewrite Hfw, Hps.
Qed.

Lemma C1_witness :
  identifiers_are_strings scenario_mapping /\
  exists pre key v post,
    scenario_mapping = pre ++ (key, Some v) :: post /\
    passed_over "https://old/path/123" pre /\
    contains v "https://old/path/123" = true /\
    rewrite_url scenario_mapping "https://old/path/123" (JObject page_a) =
    ok (rewritten page_a "https://old/path/123" key) /\
    process_file scenario_mapping "page_a.json" (Json (JObject page_a)) initial_state =
    ok (write_good "page_a.json"
          (cleaned_record (JString "Page A") "https://old/path/123" key (JArray []))
          (JString key) initial_state).
Proof.
  assert (H : identifiers_are_strings scenario_mapping)
    by (repeat constructor; discriminate).
  split; [exact H|].
  destruct (proj1 C1_first_substring_entry_rewrites_url scenario_mapping
              "page_a.json" page_a "https://old/path/123" "123" "Page A" (JArray [])
              initial_state H eq_refl eq_refl eq_refl (or_introl eq_refl))
    as (pre & key & v & post & E & Hpre & Hv & Hr & _ & _ & Hw).
  exists pre, key, v, post. repeat split; try assumption.
  exact (Hw eq_refl eq_refl eq_refl).
Defined.



(** A record whose page id equals an identifier of the mapping while no
    identifier of the mapping occurs in its url does not exist: the page id is
    itself a part of the url. *)
Lemma stale_url_case_never_arises :
  ~ exists (mapping : mapping_t) (u pid : string),
      current_page_id_of u = Some pid /\
      In (Some pid) (values mapping) /\
      (forall v, In (Some v) (values mapping) -> contains v u = false).
Proof.
  intros (mapping & u & pid & Hp & Hin & Hnone).
  apply current_page_id_in_url in Hp. rewrite (Hnone _ Hin) in Hp. discriminate.
Qed.

(** When the page id of a record equals an identifier of the mapping, that
    identifier occurs in the record's url, so
    the scan either stops at an entry and rewrites [internal_url] and [url],
    or raises on a [None] identifier: it never leaves the url as it was for
    want of a match. Whenever the iteration returns, the record had a string
    title and was skipped for the redirect prefix or written with exactly
    the four fields, [internal_url] being the original url and [url] a key of
    the mapping; and it does return when the identifiers are strings and the
    record has a string title and paragraphs. *)
Theorem matched_record_is_always_rewritten :
  forall (mapping : mapping_t) (filename : string) (d : dict json) (u pid : string)
         (st : cleaner_state),
    endswith ".json" filename = true ->
    dict_get "url" d = Some (JString u) ->
    current_page_id_of u = Some pid ->
    In (Some pid) (values mapping) ->
    (exists key v, In (key, Some v) mapping /\ contains v u = true) /\
    (rewrite_url mapping u (JObject d) = raise TypeError \/
     exists key, In key (keys mapping) /\
                 rewrite_url mapping u (JObject d) = ok (rewritten d u key)) /\
    (forall st',
        process_file mapping filename (Json (JObject d)) st = ok st' ->
        exists t, dict_get "title" d = Some (JString t) /\
          if startswith "Forward to" t then st' = st
          else exists key ps,
              In key (keys mapping) /\ dict_get "paragraphs" d = Some ps /\
              st' = write_good filename (cleaned_record (JString t) u key ps)
                      (JString key) st) /\
    (identifiers_are_strings mapping ->
     forall t, dict_get "title" d = Some (JString t) ->
               dict_get "paragraphs" d <> None ->
               exists st', process_file mapping filename (Json (JObject d)) st = ok st').
Proof.
  intros mapping filename d u pid st Hf Hu Hp Hin.
  assert (Hkey : forall pre key (v : page_id) post,
             In key (keys (pre ++ (key, v) :: post))).
  { intros. unfold keys. rewrite map_app. apply in_or_app. right. now left. }
  split; [|split; [|split]].
  - unfold values in Hin. apply in_map_iff in Hin as ([k p] & E & Hin).
    simpl in E; subst p. exists k, pid. split; [assumption|].
    now apply current_page_id_in_url.
  - destruct (scan_cases mapping u) as [H | [(pre & key & post & -> & H) | (pre & key & v & post & -> & H & Hv)]].
    + now apply membership_excludes_no_match with (pid := pid) in H.
    + left. now apply rewrite_url_at_None.
    + right. exists key. split; [apply Hkey | now apply rewrite_url_at_first_match].
  - intros st' Hok.
    pose proof (proj2 (membership_test _ _) Hin) as Hm.
    destruct (scan_cases mapping u) as [H | [(pre & key & post & -> & H) | (pre & key & v & post & -> & H & Hv)]].
    + now apply membership_excludes_no_match with (pid := pid) in H.
    + rewrite (process_file_json _ _ _ _ _ _ Hf Hu Hp), Hm in Hok.
      rewrite (rewrite_url_at_None _ _ _ _ _ H) in Hok. discriminate.
    + destruct (dict_get "title" d) as [[| | |t| |]|] eqn:Ht;
        try (rewrite (process_file_json _ _ _ _ _ _ Hf Hu Hp), Hm in Hok;
             rewrite (rewrite_url_at_first_match _ _ _ _ _ _ H Hv) in Hok;
             cbn [bind ok] in Hok; rewrite getitem_rewritten_title in Hok;
             cbn [getitem] in Hok; rewrite Ht in Hok; discriminate).
      exists t. split; [reflexivity|].
      rewrite (process_file_matched _ _ _ _ _ _ _ _ _ _ Hf Hu Hp Hin H Hv Ht) in Hok.
      destruct (startswith "Forward to" t).
      * now inversion Hok.
      * destruct (dict_get "paragraphs" d) as [ps|]; [|discriminate].
        exists key, ps. repeat split; [apply Hkey | now inversion Hok].
  - intros Hstr t Ht Hps.
    destruct (first_match_exists _ _ _ Hp Hin Hstr) as (pre & key & v & post & -> & H & Hv).
    rewrite (process_file_matched _ _ _ _ _ _ _ _ _ _ Hf Hu Hp Hin H Hv Ht).
    destruct (startswith "Forward to" t); [eauto|].
    destruct (dict_get "paragraphs" d); [eauto | congruence].
Qed.

Lemma matched_record_is_always_rewritten_witness :
  In (Some "123") (values scenario_mapping) /\
  exists key ps,
    In key (keys scenario_mapping) /\ dict_get "paragraphs" page_a = Some ps /\
    process_file scenario_mapping "page_a.json" (Json (JObject page_a)) initial_state =
    ok (write_good "page_a.json"
          (cleaned_record (JString "Page A") "https://old/path/123" key ps)
          (JString key) initial_state).
Proof.
  assert (Hin : In (Some "123") (values scenario_mapping)) by (left; reflexivity).
  split; [exact Hin|].
  destruct (proj1 (proj2 (proj2
              (matched_record_is_always_rewritten scenario_mapping "page_a.json"
                 page_a "https://old/path/123" "123" initial_state
                 eq_refl eq_refl eq_refl Hin))) _ eq_refl) as (t & Ht & H).
  vm_compute in Ht. injection Ht as <-.
  cbn [startswith String.prefix] in H. simpl in H.
  destruct H as (key & ps & Hk & Hps & E).
  exists key, ps. repeat split; try assumption. now rewrite <- E.
Defined.

(** C4, refuted. [cleaned_123] is what the Reconciler writes for [page_123];
    it carries exactly the four fields and its url is a key of the mapping.
    Run again on it, the Reconciler writes a record whose [internal_url] is
    no longer the one it read. *)
Lemma C4_second_run_changes_internal_url :
  written (fst (clean_export_data mapping_123 [("page.json", Json (JObject page_123))]))
  = [("page.json", JObject cleaned_123)] /\
  keys cleaned_123 = cleaned_fields /\
  dict_get "url" cleaned_123 = Some (JString "https://kb/x/123") /\
  In "https://kb/x/123" (keys mapping_123) /\
  exists data',
    written (fst (clean_export_data mapping_123 [("page.json", Json (JObject cleaned_123))]))
    = [("page.json", data')] /\
    getitem (JObject cleaned_123) "internal_url" = ok (JString "https://old/path/123") /\
    getitem data' "internal_url" = ok (JString "https://kb/x/123") /\
    getitem data' "internal_url" <> getitem (JObject cleaned_123) "internal_url".
Proof.
  repeat split; try reflexivity; [now left|].
  eexists. repeat split; try reflexivity. discriminate.
Qed.

(** C4, as the code has it. For a [.json] record carrying exactly the four
    fields, with a string title and a string url: when the page id derived
    from the url equals no identifier, the record goes to the failed list and
    nothing is written; when it equals one (the identifiers being strings),
    the record, unless skipped for the redirect prefix, is written with
    [internal_url] set to the url it had and [url] set to the key of the first
    entry whose identifier occurs in that url. The written record is the one
    read exactly when [internal_url] was already the url and that key is the
    url. *)
Theorem C4_rerun_on_cleaned_record :
  forall (mapping : mapping_t) (filename t u pid : string) (i ps : json)
         (st : cleaner_state),
    endswith ".json" filename = true ->
    identifiers_are_strings mapping ->
    current_page_id_of u = Some pid ->
    let d := [("title", JString t); ("internal_url", i); ("url", JString u);
              ("paragraphs", ps)] in
    (~ In (Some pid) (values mapping) ->
     process_file mapping filename (Json (JObject d)) st =
     ok (append_failed (JString u) st)) /\
    (In (Some pid) (values mapping) ->
     exists pre key v post,
       mapping = pre ++ (key, Some v) :: post /\
       passed_over u pre /\ contains v u = true /\
       process_file mapping filename (Json (JObject d)) st =
       (if startswith "Forward to" t then ok st
        else ok (write_good filename (cleaned_record (JString t) u key ps)
                   (JString key) st)) /\
       (cleaned_record (JString t) u key ps = JObject d <-> i = JString u /\ key = u)).
Proof.
  intros mapping filename t u pid i ps st Hf Hstr Hp d.
  assert (Hu : dict_get "url" d = Some (JString u)) by reflexivity.
  split.
  - intros Hn. rewrite (process_file_json _ _ _ _ _ _ Hf Hu Hp).
    destruct (existsb _ (values mapping)) eqn:E; [|reflexivity].
    apply membership_test in E. contradiction.
  - intros Hin.
    destruct (first_match_exists _ _ _ Hp Hin Hstr) as (pre & key & v & post & -> & H & Hv).
    exists pre, key, v, post.
    split; [reflexivity|]. split; [assumption|]. split; [assumption|]. split.
    + exact (process_file_matched _ _ _ _ _ _ _ _ t st Hf Hu Hp Hin H Hv eq_refl).
    + unfold cleaned_record, d. split.
      * intros E. now inversion E.
      * intros [-> ->]. reflexivity.
Qed.

(** C5, evaluated. With no entry in the input folder both lists are empty
    and the ratio of line 84 divides by zero: the run ends with
    [ZeroDivisionError], whatever the mapping. *)
Theorem C5_empty_folder_raises_ZeroDivisionError :
  forall mapping : mapping_t,
    clean_export_data mapping [] = (initial_state, Some ZeroDivisionError) /\
    good_mappings (fst (clean_export_data mapping [])) = [] /\
    failed_mappings (fst (clean_export_data mapping [])) = [].
Proof. intros mapping. repeat split. Qed.

Lemma C4_witness :
  identifiers_are_strings mapping_123 /\
  In (Some "123") (values mapping_123) /\
  exists key,
    process_file mapping_123 "page.json" (Json (JObject cleaned_123)) initial_state =
    ok (write_good "page.json"
          (cleaned_record (JString "Page A") "https://kb/x/123" key (JArray []))
          (JString key) initial_state).
Proof.
  assert (H : identifiers_are_strings mapping_123) by (repeat constructor; discriminate).
  assert (Hin : In (Some "123") (values mapping_123)) by (left; reflexivity).
  split; [exact H|]. split; [exact Hin|].
  destruct (proj2 (C4_rerun_on_cleaned_record mapping_123 "page.json" "Page A"
                     "https://kb/x/123" "123" (JString "https://old/path/123")
                     (JArray []) initial_state eq_refl H eq_refl) Hin)
    as (pre & key & v & post & _ & _ & _ & E & _).
  exists key. exact E.
Defined.

(** ** Whole runs of [clean_export_data] *)

Section Runs.

Lemma rewrite_url_result (mapping : mapping_t) (u : string) (d : dict json) (data' : json) :
  rewrite_url mapping u (JObject d) = ok data' ->
  data' = JObject d \/ exists key, In key (keys mapping) /\ data' = rewritten d u key.
Proof.
  intros H.
  destruct (scan_cases mapping u) as [Hn | [(pre & key & post & -> & Hn) | (pre & key & v & post & -> & Hn & Hv)]].
  - rewrite (rewrite_url_no_match _ _ _ Hn) in H. left. now inversion H.
  - rewrite (rewrite_url_at_None _ _ _ _ _ Hn) in H. discriminate.
  - rewrite (rewrite_url_at_first_match _ _ _ _ _ _ Hn Hv) in H. right.
    exists key. split; [|now inversion H].
    unfold keys. rewrite map_app. apply in_or_app. right. now left.
Qed.

Lemma comprehension_shape (data : json) (fields : dict json) :
  dict_comprehension data cleaned_fields [] = ok fields ->
  exists a b c e,
    getitem data "title" = ok a /\ getitem data "internal_url" = ok b /\
    getitem data "url" = ok c /\ getitem data "paragraphs" = ok e /\
    fields = [("title", a); ("internal_url", b); ("url", c); ("paragraphs", e)].
Proof.
  unfold cleaned_fields. cbn [dict_comprehension].
  destruct (getitem data "title") as [?|a]; [discriminate|].
  destruct (getitem data "internal_url") as [?|b]; [discriminate|].
  destruct (getitem data "url") as [?|c]; [discriminate|].
  destruct (getitem data "paragraphs") as [?|e]; [discriminate|].
  cbn. intros H. inversion H. exists a, b, c, e. auto.
Qed.

(** What one iteration can add to the output folder: nothing, or one file
    under the name of the entry, for a record whose title is a string outside
    the redirect prefix and is kept as the title of the file. *)
Lemma process_file_written (mapping : mapping_t) (filename : string)
    (content : file_content) (st st' : cleaner_state) :
  process_file mapping filename content st = ok st' ->
  written st' = written st \/
  exists d t data,
    content = Json (JObject d) /\ dict_get "title" d = Some (JString t) /\
    startswith "Forward to" t = false /\
    getitem data "title" = ok (JString t) /\
    written st' = written st ++ [(filename, data)].
Proof.
  unfold process_file.
  destruct (negb (endswith ".json" filename)).
  { intros H. inversion H. now left. }
  destruct content as [doc|]; [|discriminate]. cbn [json_load bind ok].
  destruct doc as [| | | | |d]; try discriminate. cbn [getitem].
  destruct (dict_get "url" d) as [url|]; [|discriminate]. cbn [bind ok].
  destruct url as [| | |u| |]; try discriminate. cbn [as_str bind ok].
  destruct (current_page_id_of u) as [pid|]; [|discriminate].
  destruct (existsb _ (values mapping)).
  2:{ intros H. inversion H. now left. }
  destruct (rewrite_url mapping u (JObject d)) as [?|data'] eqn:Er; [discriminate|].
  cbn [bind].
  assert (Ht : getitem data' "title" = getitem (JObject d) "title").
  { apply rewrite_url_result in Er as [->|(key & _ & ->)];
      [reflexivity | apply getitem_rewritten_title]. }
  rewrite Ht. cbn [getitem].
  destruct (dict_get "title" d) as [title|] eqn:Etitle; [|discriminate]. cbn [bind ok].
  destruct title as [| | |t| |]; try discriminate. cbn [as_str bind ok].
  destruct (startswith "Forward to" t) eqn:Efw.
  { intros H. inversion H. now left. }
  destruct (dict_comprehension data' cleaned_fields []) as [?|fields] eqn:Ec; [discriminate|].
  cbn [bind].
  apply comprehension_shape in Ec as (a & b & c & e & Ha & _ & _ & _ & ->).
  rewrite Ht in Ha. cbn [getitem] in Ha. rewrite Etitle in Ha. inversion Ha; subst a.
  cbn. intros H. inversion H. right.
  exists d, t, (JObject [("title", JString t); ("internal_url", b); ("url", c); ("paragraphs", e)]).
  repeat split; auto.
Qed.

Lemma process_files_written (mapping : mapping_t) (folder : listing) (st : cleaner_state)
    (filename : string) (data : json) :
  In (filename, data) (written (fst (process_files mapping folder st))) ->
  In (filename, data) (written st) \/
  exists d t,
    In (filename, Json (JObject d)) folder /\ dict_get "title" d = Some (JString t) /\
    startswith "Forward to" t = false /\ getitem data "title" = ok (JString t).
Proof.
  revert st. induction folder as [|[fn content] folder IH]; intros st; simpl.
  - auto.
  - destruct (process_file mapping fn content st) as [e|st'] eqn:E; simpl; [auto|].
    intros Hin. destruct (IH _ Hin) as [Hin' | (d & t & H1 & H2)].
    + apply process_file_written in E as [Ew | (d & t & data' & -> & Ht & Hfw & Hd & Ew)];
        rewrite Ew in Hin'; [auto|].
      apply in_app_or in Hin' as [Hin' | [Heq | []]]; [auto|].
      inversion Heq; subst. right. exists d, t. auto.
    + right. exists d, t. auto.
Qed.

Lemma written_report (st : cleaner_state) : written (fst (report st)) = written st.
Proof. unfold report. now destruct (_ =? 0)%nat. Qed.

Lemma written_clean_export_data (mapping : mapping_t) (folder : listing) :
  written (fst (clean_export_data mapping folder)) =
  written (fst (process_files mapping folder initial_state)).
Proof.
  unfold clean_export_data.
  destruct (process_files mapping folder initial_state) as [st [e|]]; simpl;
    [reflexivity | apply written_report].
Qed.

Lemma NoDup_names_unique (folder : listing) (filename : string) (c1 c2 : file_content) :
  NoDup (map fst folder) -> In (filename, c1) folder -> In (filename, c2) folder -> c1 = c2.
Proof.
  induction folder as [|[fn c] folder IH]; simpl; [tauto|].
  intros Hnd [H1|H1] [H2|H2]; inversion Hnd as [|? ? Hnotin Hnd']; subst.
  - congruence.
  - inversion H1; subst. exfalso. apply Hnotin. now apply (in_map fst _ (filename, c2)).
  - inversion H2; subst. exfalso. apply Hnotin. now apply (in_map fst _ (filename, c1)).
  - auto.
Qed.

End Runs.

(** C6. Every file of the cleaned output folder comes from an input record
    whose title is a string that does not start with the redirect prefix,
    and keeps that title; so, file names being distinct, no file is written
    under the name of a record whose title starts with it, whether or not
    its page id matched the mapping; the iteration for such a record leaves
    the output folder as it was. *)
Theorem C6_forward_to_records_are_never_written :
  forall (mapping : mapping_t) (folder : listing),
    (forall filename data,
        In (filename, data) (written (fst (clean_export_data mapping folder))) ->
        exists d t,
          In (filename, Json (JObject d)) folder /\
          dict_get "title" d = Some (JString t) /\
          startswith "Forward to" t = false /\
          getitem data "title" = ok (JString t)) /\
    (forall filename d t,
        NoDup (map fst folder) ->
        In (filename, Json (JObject d)) folder ->
        dict_get "title" d = Some (JString t) ->
        startswith "Forward to" t = true ->
        ~ In filename (map fst (written (fst (clean_export_data mapping folder))))) /\
    (forall filename d t st,
        dict_get "title" d = Some (JString t) ->
        startswith "Forward to" t = true ->
        written (fst (process_files mapping [(filename, Json (JObject d))] st)) =
        written st).
Proof.
  intros mapping folder.
  assert (Hall : forall filename data,
             In (filename, data) (written (fst (clean_export_data mapping folder))) ->
             exists d t,
               In (filename, Json (JObject d)) folder /\
               dict_get "title" d = Some (JString t) /\
               startswith "Forward to" t = false /\
               getitem data "title" = ok (JString t)).
  { intros filename data Hin. rewrite written_clean_export_data in Hin.
    apply process_files_written in Hin as [[] | H]. exact H. }
  split; [exact Hall|]. split.
  - intros filename d t Hnd Hin Ht Hfw Hw.
    apply in_map_iff in Hw as ([fn data] & E & Hw). simpl in E; subst fn.
    destruct (Hall _ _ Hw) as (d' & t' & Hin' & Ht' & Hfw' & _).
    pose proof (NoDup_names_unique _ _ _ _ Hnd Hin Hin') as E.
    inversion E; subst d'. congruence.
  - intros filename d t st Ht Hfw. simpl.
    destruct (process_file mapping filename (Json (JObject d)) st) as [e|st'] eqn:E;
      [reflexivity|].
    apply process_file_written in E as [E | (d' & t' & data & Hc & Ht' & Hfw' & _)];
      [exact E|].
    inversion Hc; subst d'. congruence.
Qed.

Lemma C6_witness :
  NoDup (map fst mixed_folder) /\
  ~ In "fwd.json" (map fst (written (fst (clean_export_data scenario_mapping mixed_folder))))
  /\
  ~ In "fwd2.json" (map fst (written (fst (clean_export_data scenario_mapping mixed_folder)))).
Proof.
  assert (Hnd : NoDup (map fst mixed_folder)).
  { simpl. repeat constructor; simpl; intuition discriminate. }
  split; [exact Hnd|]. split.
  - apply (proj1 (proj2 (C6_forward_to_records_are_never_written scenario_mapping
                           mixed_folder))
             "fwd.json" forward_matched "Forward to Page A" Hnd);
      [left; reflexivity | reflexivity | reflexivity].
  - apply (proj1 (proj2 (C6_forward_to_records_are_never_written scenario_mapping
                           mixed_folder))
             "fwd2.json" forward_unmatched "Forward to nowhere" Hnd);
      [right; right; left; reflexivity | reflexivity | reflexivity].
Defined.

(** ** Files that are not [.json] *)

Section NonJson.

Lemma process_file_effect (mapping : mapping_t) (filename : string)
    (content : file_content) :
  endswith ".json" filename = true ->
  exists eff, forall st,
      process_file mapping filename content st = run_effect filename eff st.
Proof.
  intros Hf. unfold process_file. rewrite Hf. cbn [negb].
  destruct (json_load content) as [e|data]; [now exists (ERaise e)|]. cbn [bind].
  destruct (getitem data "url") as [e|url]; [now exists (ERaise e)|]. cbn [bind].
  destruct (as_str url) as [e|u]; [now exists (ERaise e)|]. cbn [bind].
  destruct (current_page_id_of u) as [pid|]; [|now exists (ERaise IndexError)].
  destruct (existsb _ (values mapping)); [|now exists (EFail url)].
  destruct (rewrite_url mapping u data) as [e|data']; [now exists (ERaise e)|]. cbn [bind].
  destruct (getitem data' "title") as [e|title]; [now exists (ERaise e)|]. cbn [bind].
  destruct (as_str title) as [e|t]; [now exists (ERaise e)|]. cbn [bind].
  destruct (startswith "Forward to" t); [now exists EContinue|].
  destruct (dict_comprehension data' cleaned_fields []) as [e|fields];
    [now exists (ERaise e)|]. cbn [bind].
  destruct (getitem (JObject fields) "url") as [e|new_url]; [now exists (ERaise e)|].
  now exists (EWrite (JObject fields) new_url).
Qed.

Lemma agree_print_skip (filename : string) (st1 st2 : cleaner_state) :
  agree st1 st2 -> agree (print (PrintSkipping filename) st1) st2.
Proof.
  intros (Hw & Hg & Hfl & Ho). repeat split; simpl; auto.
  unfold without_skip_messages in *. rewrite filter_app. simpl.
  now rewrite app_nil_r.
Qed.

Lemma agree_print (e : event) (st1 st2 : cleaner_state) :
  is_skip_message e = false -> agree st1 st2 -> agree (print e st1) (print e st2).
Proof.
  intros He (Hw & Hg & Hfl & Ho). repeat split; simpl; auto.
  unfold without_skip_messages in *. rewrite filter_app. simpl.
  rewrite He. simpl. now rewrite Ho.
Qed.

Lemma agree_run_effect (filename : string) (eff : effect) (st1 st2 : cleaner_state) :
  agree st1 st2 ->
  match run_effect filename eff st1, run_effect filename eff st2 with
  | inl e1, inl e2 => e1 = e2
  | inr st1', inr st2' => agree st1' st2'
  | _, _ => False
  end.
Proof.
  intros (Hw & Hg & Hfl & Ho). destruct eff; simpl; auto.
  - repeat split; auto.
  - repeat split; simpl; auto; congruence.
  - repeat split; simpl; auto; congruence.
Qed.

Lemma process_files_filter (mapping : mapping_t) (folder : listing)
    (st1 st2 : cleaner_state) :
  agree st1 st2 ->
  agree (fst (process_files mapping folder st1))
        (fst (process_files mapping (filter is_json_name folder) st2)) /\
  snd (process_files mapping folder st1) =
  snd (process_files mapping (filter is_json_name folder) st2).
Proof.
  revert st1 st2. induction folder as [|[fn content] folder IH]; intros st1 st2 Ha.
  - simpl. auto.
  - assert (Hj : is_json_name (fn, content) = endswith ".json" fn) by reflexivity.
    cbn [filter]. rewrite !Hj.
    destruct (endswith ".json" fn) eqn:Hf.
    + destruct (process_file_effect mapping fn content Hf) as [eff He].
      cbn [process_files]. rewrite !He.
      pose proof (agree_run_effect fn eff _ _ Ha) as Hr.
      destruct (run_effect fn eff st1) as [e1|st1'], (run_effect fn eff st2) as [e2|st2'];
        try contradiction.
      * subst e2. simpl. auto.
      * now apply IH.
    + cbn [process_files]. unfold process_file. rewrite Hf. cbn [negb].
      apply IH. now apply agree_print_skip.
Qed.

Lemma report_agree (st1 st2 : cleaner_state) :
  agree st1 st2 ->
  agree (fst (report st1)) (fst (report st2)) /\ snd (report st1) = snd (report st2).
Proof.
  intros Ha. pose proof Ha as (Hw & Hg & Hfl & Ho). unfold report.
  rewrite Hg, Hfl. destruct (_ =? 0)%nat; simpl; [auto|].
  split; [|reflexivity].
  repeat apply agree_print; try reflexivity. exact Ha.
Qed.

End NonJson.

(** C8. An entry whose name does not end in [.json] is reported on the
    console and nothing else: its iteration raises nothing and leaves the
    output folder and both lists as they were. A whole run on a folder and
    the run on the same folder without such entries write the same files,
    build the same lists, end the same way and print the same, skip messages
    apart: in particular the same ratio. *)
Theorem C8_non_json_files_are_only_reported :
  (forall (mapping : mapping_t) (filename : string) (content : file_content)
          (st : cleaner_state),
      endswith ".json" filename = false ->
      exists st',
        process_file mapping filename content st = ok st' /\
        written st' = written st /\
        good_mappings st' = good_mappings st /\
        failed_mappings st' = failed_mappings st /\
        stdout st' = stdout st ++ [PrintSkipping filename]) /\
  (forall (mapping : mapping_t) (folder : listing),
      let r := clean_export_data mapping folder in
      let r' := clean_export_data mapping (filter is_json_name folder) in
      written (fst r) = written (fst r') /\
      good_mappings (fst r) = good_mappings (fst r') /\
      failed_mappings (fst r) = failed_mappings (fst r') /\
      snd r = snd r' /\
      without_skip_messages (stdout (fst r)) = stdout (fst r')).
Proof.
  split.
  - intros mapping filename content st Hf.
    exists (print (PrintSkipping filename) st).
    unfold process_file. rewrite Hf. repeat split.
  - intros mapping folder r r'.
    assert (H0 : agree initial_state initial_state) by (repeat split).
    destruct (process_files_filter mapping folder _ _ H0) as [Ha He].
    assert (H : agree (fst r) (fst r') /\ snd r = snd r').
    { subst r r'. unfold clean_export_data.
      destruct (process_files mapping folder initial_state) as [st1 o1].
      destruct (process_files mapping (filter is_json_name folder) initial_state)
        as [st2 o2].
      simpl in Ha, He. subst o2. destruct o1 as [e|]; [auto|].
      now apply report_agree. }
    destruct H as [(Hw & Hg & Hfl & Ho) Hs]. auto.
Qed.

Lemma C8_witness :
  exists st',
    process_file scenario_mapping "notes.txt" Malformed initial_state = ok st' /\
    written st' = [] /\ good_mappings st' = [] /\ failed_mappings st' = [] /\
    stdout st' = [PrintSkipping "notes.txt"].
Proof.
  exact (proj1 C8_non_json_files_are_only_reported scenario_mapping "notes.txt"
           Malformed initial_state eq_refl).
Defined.

(** ** The link extractor *)

Section Links.

Local Open Scope string_scope.

Lemma append_inj_l (a b c : string) : a ++ b = a ++ c -> b = c.
Proof. induction a as [|x a IH]; simpl; intros H; [exact H | inversion H; auto]. Qed.

Lemma upto_quote_spec (s value rest : string) :
  upto_quote s = Some (value, rest) ->
  s = value ++ String dquote rest /\ mem_char dquote value = false.
Proof.
  revert value rest.
  induction s as [|c s IH]; cbn [upto_quote]; intros value rest H; [discriminate|].
  destruct (Ascii.eqb c dquote) eqn:E.
  - apply Ascii.eqb_eq in E. inversion H; subst. auto.
  - destruct (upto_quote s) as [[v r]|]; [|discriminate].
    inversion H; subst. destruct (IH _ _ eq_refl) as [-> Hm].
    cbn [mem_char append]. rewrite Ascii.eqb_sym, E, Hm. auto.
Qed.

Lemma strip_prefix_spec (p s tail : string) :
  strip_prefix p s = Some tail -> s = p ++ tail.
Proof.
  revert s. induction p as [|a p IH]; simpl; intros s H.
  - now inversion H.
  - destruct s as [|b s]; [discriminate|].
    destruct (Ascii.eqb a b) eqn:E; [|discriminate].
    apply Ascii.eqb_eq in E. subst b. now rewrite (IH _ H).
Qed.

(** A match at the head of [s]: [s] starts with href=, a quote, the group
    without any quote, and a closing quote. *)
Lemma match_href_spec (s value rest : string) :
  match_href s = Some (value, rest) ->
  s = href_open ++ value ++ String dquote rest /\ mem_char dquote value = false.
Proof.
  unfold match_href. destruct (strip_prefix href_open s) as [tail|] eqn:E; [|discriminate].
  intros H. apply upto_quote_spec in H as [-> Hm]. apply strip_prefix_spec in E. auto.
Qed.

Lemma contains_skip (v s : string) (c : ascii) :
  contains v s = true -> contains v (String c s) = true.
Proof. intros H. cbn [contains]. rewrite H. apply orb_true_r. Qed.

Lemma contains_after (v a s : string) :
  contains v s = true -> contains v (a ++ s) = true.
Proof. induction a as [|c a IH]; simpl append; intros H; [exact H | apply contains_skip; auto]. Qed.

(** Every group returned by [findall_href] is quote-free and stands in the
    text between href=, a quote and a closing quote. *)
Lemma findall_href_occurs (text v : string) :
  In v (findall_href text) ->
  mem_char dquote v = false /\
  contains (href_open ++ v ++ String dquote "") text = true.
Proof.
  funelim (findall_href text).
  - intros [].
  - intros [<-|Hin].
    + pose proof (match_href_spec _ _ _ e) as [E Hm]. split; [exact Hm|].
      apply contains_iff. exists "", rest. rewrite E. cbn [append].
      now rewrite !append_assoc.
    + destruct (H _ Hin) as [Hm Hc]. split; [exact Hm|].
      pose proof (match_href_spec _ _ _ e) as [E _]. rewrite E.
      apply contains_after.
      rewrite <- append_assoc. apply contains_after.
      now apply contains_skip.
  - intros Hin. destruct (H _ Hin) as [Hm Hc].
    split; [exact Hm | now apply contains_skip].
Qed.

End Links.

(** C7. The extractor returns, in order and with repetitions, the base
    origin prepended to each matched href value that starts with a slash,
    the path prefix and a slash. So every returned url starts with the base
    origin, a slash, the prefix and a slash, and continues with the rest of
    an href value found between quotes in the text; and an href value
    outside the prefix contributes no url. *)
Theorem C7_extracted_urls_keep_prefix_order_duplicates :
  forall base_url text url_subdir : string,
    let hrefs := findall_href text in
    let pfx := ("/" ++ url_subdir ++ "/")%string in
    extract_href_urls base_url text url_subdir =
    map (String.append base_url) (filter (startswith pfx) hrefs) /\
    length (extract_href_urls base_url text url_subdir) =
    length (filter (startswith pfx) hrefs) /\
    (forall url,
        In url (extract_href_urls base_url text url_subdir) ->
        exists href rest,
          In href hrefs /\ href = (pfx ++ rest)%string /\
          url = (base_url ++ href)%string /\
          url = (base_url ++ "/" ++ url_subdir ++ "/" ++ rest)%string /\
          startswith (base_url ++ "/" ++ url_subdir ++ "/")%string url = true /\
          mem_char dquote href = false /\
          contains (href_open ++ href ++ String dquote "")%string text = true) /\
    (forall href,
        startswith pfx href = false ->
        ~ In (base_url ++ href)%string (extract_href_urls base_url text url_subdir)).
Proof.
  intros base_url text url_subdir hrefs pfx.
  assert (Hin : forall url,
             In url (extract_href_urls base_url text url_subdir) ->
             exists href, url = (base_url ++ href)%string /\ In href hrefs /\
                          startswith pfx href = true).
  { intros url H. unfold extract_href_urls in H.
    apply in_map_iff in H as (href & <- & H). apply filter_In in H as [H1 H2].
    exists href. auto. }
  split; [reflexivity|]. split; [apply length_map|]. split.
  - intros url H. destruct (Hin _ H) as (href & -> & Hh & Hp).
    pose proof Hp as Hp'. apply startswith_iff in Hp' as [rest Hr].
    exists href, rest. destruct (findall_href_occurs _ _ Hh) as [Hm Hc].
    assert (E : (base_url ++ href = base_url ++ "/" ++ url_subdir ++ "/" ++ rest)%string).
    { rewrite Hr. unfold pfx. now rewrite !append_assoc. }
    repeat split; try assumption.
    apply startswith_iff. exists rest. rewrite E. now rewrite !append_assoc.
  - intros href Hp H. destruct (Hin _ H) as (href' & E & _ & Hp').
    apply append_inj_l in E. subst href'. congruence.
Qed.

Lemma C7_witness :
  extract_href_urls "https://kb" sample_html "zmp" = ["https://kb/zmp/a"; "https://kb/zmp/a"]
  /\
  findall_href sample_html = ["/zmp/a"; "/other/b"; "/zmp/a"] /\
  (exists href rest,
      In href (findall_href sample_html) /\ href = ("/" ++ "zmp" ++ "/" ++ rest)%string /\
      "https://kb/zmp/a" = ("https://kb" ++ href)%string) /\
  ~ In "https://kb/other/b" (extract_href_urls "https://kb" sample_html "zmp").
Proof.
  pose proof (C7_extracted_urls_keep_prefix_order_duplicates "https://kb" sample_html "zmp")
    as (_ & _ & Hu & Hn).
  split; [reflexivity|]. split; [reflexivity|]. split.
  - destruct (Hu "https://kb/zmp/a" (or_introl eq_refl))
      as (href & rest & H1 & H2 & H3 & _).
    exists href, rest. rewrite append_assoc in H2. auto.
  - exact (Hn "/other/b" eq_refl).
Defined.

(** ** The content extractor and the resolver *)

Section CollaboratorFacts.

Variables soup tag : Type.
Variable BeautifulSoup : string -> soup.
Variable find_all : soup -> list tag.
Variable name : tag -> string.
Variable get_text : tag -> string.
Variable title_tag : soup -> option tag.
Variable string_of : tag -> option string.
Variable find_html_no_js : soup -> option tag.
Variable get_attr : tag -> string -> option string.
Variable World : Type.
Variable requests_get : string -> World -> World * result string.
Variable links_file_lines : list string -> list string.

Lemma is_heading_iff (n : string) :
  is_heading n = true <->
  exists c, n = String "h" (String c EmptyString) /\ isdigit c = true.
Proof.
  unfold is_heading. split.
  - rewrite !andb_true_iff. intros [[Hs Hl] Hd].
    apply startswith_iff in Hs as [rest ->]. cbn [append] in *.
    destruct rest as [|c [|c' rest]]; try discriminate.
    exists c. split; [reflexivity | exact Hd].
  - intros (c & -> & Hd). cbn. exact Hd.
Qed.

Lemma p_is_not_heading (e : tag) : is_p name e = true -> is_heading (name e) = false.
Proof. unfold is_p. intros H. apply String.eqb_eq in H. now rewrite H. Qed.

Lemma paragraphs_loop_acc (elements : list tag) (h : string) (acc : list json) :
  paragraphs_loop name get_text elements h acc =
  acc ++ paragraphs_loop name get_text elements h [].
Proof.
  revert h acc. induction elements as [|e elements IH]; intros h acc; simpl.
  - now rewrite app_nil_r.
  - destruct (is_heading (name e)); [apply IH|].
    destruct (name e =? "p")%string; [|apply IH].
    rewrite IH, (IH h [_]). now rewrite app_assoc.
Qed.

Lemma paragraphs_loop_app (pre post : list tag) (h : string) (acc : list json) :
  paragraphs_loop name get_text (pre ++ post) h acc =
  paragraphs_loop name get_text post (running_header name get_text h pre)
    (paragraphs_loop name get_text pre h acc).
Proof.
  revert h acc. induction pre as [|e pre IH]; intros h acc; simpl; [reflexivity|].
  destruct (is_heading (name e)); [apply IH|].
  destruct (name e =? "p")%string; apply IH.
Qed.

Lemma paragraphs_loop_length (elements : list tag) (h : string) :
  length (paragraphs_loop name get_text elements h []) = length (filter (is_p name) elements).
Proof.
  revert h. induction elements as [|e elements IH]; intros h; simpl; [reflexivity|].
  destruct (is_heading (name e)) eqn:Hh.
  - destruct (is_p name e) eqn:Hp; [|apply IH].
    apply p_is_not_heading in Hp. congruence.
  - unfold is_p at 1. destruct (name e =? "p")%string; [|apply IH].
    rewrite paragraphs_loop_acc, length_app, IH. reflexivity.
Qed.

Lemma running_header_no_heading (h : string) (pre : list tag) :
  (forall x, In x pre -> is_heading (name x) = false) -> running_header name get_text h pre = h.
Proof.
  revert h. induction pre as [|e pre IH]; intros h H; simpl; [reflexivity|].
  rewrite (H e (or_introl eq_refl)). apply IH. intros x Hx. apply H. now right.
Qed.

Lemma running_header_app (h : string) (pre post : list tag) :
  running_header name get_text h (pre ++ post) = running_header name get_text (running_header name get_text h pre) post.
Proof. apply fold_left_app. Qed.

(** C9. A tag name passes the heading test exactly when it is the letter h
    followed by one digit. In [extract_content], the paragraph element [e]
    found after the elements [pre] in document order yields the object with
    the two fields [header], the header in force after [pre], and [content],
    the text of [e], at the position given by the paragraph elements before
    it; the output has one entry per paragraph element. The header in force
    is the text of the last heading so far, and the empty string before any
    heading. *)
Theorem C9_paragraph_gets_running_header :
  (forall n, is_heading n = true <->
             exists c, n = String "h" (String c EmptyString) /\ isdigit c = true) /\
  (forall (html web_url : string) (pre post : list tag) (e : tag),
      find_all (BeautifulSoup html) = pre ++ e :: post ->
      name e = "p" ->
      exists paragraphs,
        getitem (extract_content BeautifulSoup find_all name get_text title_tag
                   string_of html web_url) "paragraphs" = ok (JArray paragraphs) /\
        nth_error paragraphs (length (filter (is_p name) pre)) =
        Some (JObject [("header", JString (running_header name get_text "" pre));
                       ("content", JString (get_text e))]) /\
        length paragraphs = length (filter (is_p name) (pre ++ e :: post))) /\
  (forall pre : list tag,
      (forall x, In x pre -> is_heading (name x) = false) ->
      running_header name get_text "" pre = EmptyString) /\
  (forall (pre post : list tag) (h : tag),
      is_heading (name h) = true ->
      (forall x, In x post -> is_heading (name x) = false) ->
      running_header name get_text "" (pre ++ h :: post) = get_text h).
Proof.
  split; [exact is_heading_iff|]. split; [|split].
  - intros html web_url pre post e Hall Hp.
    exists (paragraphs_loop name get_text (pre ++ e :: post) "" []).
    split; [unfold extract_content; now rewrite Hall|].
    split; [|apply paragraphs_loop_length].
    rewrite paragraphs_loop_app. cbn [paragraphs_loop].
    assert (Hh : is_heading (name e) = false) by now rewrite Hp.
    rewrite Hh, Hp. cbn [String.eqb Ascii.eqb Bool.eqb].
    rewrite paragraphs_loop_acc, <- app_assoc.
    rewrite <- (paragraphs_loop_length pre "").
    rewrite nth_error_app2 by lia. now rewrite Nat.sub_diag.
  - intros pre H. now apply running_header_no_heading.
  - intros pre post h Hh Hpost. rewrite running_header_app. cbn [running_header fold_left].
    rewrite Hh. now apply running_header_no_heading.
Qed.

Lemma grows_refl (urls : list string) (m : mapping_t) : grows urls m m.
Proof. split; [exists []; now rewrite app_nil_r | auto]. Qed.

Lemma grows_trans (urls1 urls2 : list string) (m1 m2 m3 : mapping_t) :
  grows urls1 m1 m2 -> grows urls2 m2 m3 -> grows (urls1 ++ urls2) m1 m3.
Proof.
  intros [[a1 H1] G1] [[a2 H2] G2]. split.
  - exists (a1 ++ a2). now rewrite H2, H1, app_assoc.
  - intros k v Hk Hn. apply G2; [apply G1; [assumption|] |];
      intros Hin; apply Hn; apply in_or_app; auto.
Qed.

Lemma grows_dict_set (url : string) (p : page_id) (m : mapping_t) :
  grows [url] m (dict_set url p m).
Proof.
  split.
  - rewrite keys_dict_set. destruct (existsb _ (keys m)); [exists [] | exists [url]];
      [now rewrite app_nil_r | reflexivity].
  - intros k v Hk Hn. rewrite dict_get_set_other; [assumption|].
    intros ->. apply Hn. now left.
Qed.

Lemma create_page_id_mapping_grows (urls : list string) (w : World) (m : mapping_t) :
  grows urls m
    (snd (fst (create_page_id_mapping BeautifulSoup find_html_no_js get_attr
                 requests_get urls w m))).
Proof.
  revert w m. induction urls as [|url urls IH]; intros w m; cbn [create_page_id_mapping].
  - apply grows_refl.
  - destruct (requests_get url w) as [w' [e|html]]; [apply grows_refl|].
    destruct (find_html_no_js (BeautifulSoup html)) as [t|]; [|apply grows_refl].
    apply (grows_trans [url] urls _ _ _
             (grows_dict_set url (get_attr t "data-vp-page-id") m)), IH.
Qed.

Lemma keys_dict_set_In (url : string) (p : page_id) (m : mapping_t) :
  In url (keys (dict_set url p m)).
Proof.
  rewrite keys_dict_set. destruct (existsb _ (keys m)) eqn:E.
  - now apply existsb_eqb_In.
  - apply in_or_app. right. now left.
Qed.

(** A call that returns has made every url it was given a key. *)
Lemma create_page_id_mapping_inserts (urls : list string) (w : World) (m : mapping_t) :
  let r := create_page_id_mapping BeautifulSoup find_html_no_js get_attr
             requests_get urls w m in
  snd r = None -> forall url, In url urls -> In url (keys (snd (fst r))).
Proof.
  revert w m. induction urls as [|u urls IH]; intros w m; cbn [create_page_id_mapping].
  - intros _ url [].
  - destruct (requests_get u w) as [w' [e|html]]; [discriminate|].
    destruct (find_html_no_js (BeautifulSoup html)) as [t|]; [|discriminate].
    intros Hr url [<-|Hin]; [|now apply IH].
    destruct (create_page_id_mapping_grows urls w'
                (dict_set u (get_attr t "data-vp-page-id") m)) as [[added Hk] _].
    rewrite Hk. apply in_or_app. left. apply keys_dict_set_In.
Qed.

(** The runs of the loop on a first space and the rest: none when resolving
    the first space raises; otherwise the run on the mapping resolved from
    [m], followed, unless that run raises, by the runs of the loop on the rest
    from that mapping. *)
Lemma main_loop_cons (base_url : string) (sp : space) (spaces : list space)
    (w : World) (m : mapping_t) :
  let runs := fst (fst (main_loop BeautifulSoup find_html_no_js get_attr requests_get
                          links_file_lines base_url (sp :: spaces) w m)) in
  runs = [] \/
  exists w' m' st,
    create_page_id_mapping BeautifulSoup find_html_no_js get_attr requests_get
      (urls_of links_file_lines base_url sp) w m = (w', m', None) /\
    (runs = [(m', st)] \/
     runs = (m', st) :: fst (fst (main_loop BeautifulSoup find_html_no_js get_attr
                                   requests_get links_file_lines base_url spaces w' m'))).
Proof.
  cbn [main_loop]. fold (urls_of links_file_lines base_url sp).
  destruct (create_page_id_mapping _ _ _ _ (urls_of links_file_lines base_url sp) w m)
    as [[w' m'] [e|]]; [now left|].
  right. destruct (clean_export_data m' (export_folder sp)) as [st [e|]].
  - exists w', m', st. split; [reflexivity | now left].
  - exists w', m', st. split; [reflexivity|]. right.
    now destruct (main_loop _ _ _ _ _ base_url spaces w' m') as [[runs final] r].
Qed.

Lemma main_loop_first (base_url : string) (spaces : list space) (w : World)
    (m : mapping_t) (sp : space) (r0 : mapping_t * cleaner_state) :
  nth_error spaces 0 = Some sp ->
  nth_error (fst (fst (main_loop BeautifulSoup find_html_no_js get_attr requests_get
                         links_file_lines base_url spaces w m))) 0 = Some r0 ->
  exists w',
    create_page_id_mapping BeautifulSoup find_html_no_js get_attr requests_get
      (urls_of links_file_lines base_url sp) w m = (w', fst r0, None).
Proof.
  destruct spaces as [|sp' spaces]; [discriminate|].
  intros Hsp Hr. inversion Hsp; subst sp'.
  destruct (main_loop_cons base_url sp spaces w m)
    as [E | (w' & m' & st & Hc & [E|E])]; rewrite E in Hr; [discriminate | |];
    inversion Hr; subst r0; now exists w'.
Qed.

(** The runs after the run of rank [k] are runs of the loop on the spaces
    after rank [k], started from the mapping of that run. *)
Lemma main_loop_from (base_url : string) (spaces : list space) (w : World)
    (m : mapping_t) (k : nat) (rk : mapping_t * cleaner_state) :
  nth_error (fst (fst (main_loop BeautifulSoup find_html_no_js get_attr requests_get
                         links_file_lines base_url spaces w m))) k = Some rk ->
  exists wk,
    forall q r,
      nth_error (fst (fst (main_loop BeautifulSoup find_html_no_js get_attr requests_get
                             links_file_lines base_url spaces w m))) (S k + q) = Some r ->
      nth_error (fst (fst (main_loop BeautifulSoup find_html_no_js get_attr requests_get
                             links_file_lines base_url (skipn (S k) spaces) wk (fst rk))))
                q = Some r.
Proof.
  revert k w m. induction spaces as [|sp spaces IH]; intros k w m Hk.
  - destruct k; discriminate.
  - destruct (main_loop_cons base_url sp spaces w m)
      as [E | (w' & m' & st & _ & [E|E])]; rewrite E in Hk |- *.
    + destruct k; discriminate.
    + exists w'. intros q r Hr. simpl in Hr. destruct (k + q); discriminate.
    + destruct k as [|k].
      * inversion Hk; subst rk. exists w'. intros q r Hr. exact Hr.
      * cbn [nth_error] in Hk. destruct (IH _ _ _ Hk) as [wk Hwk].
        exists wk. intros q r Hr. apply Hwk. exact Hr.
Qed.

(** The mapping of the run of rank [q] is grown from the mapping the loop
    started with by the urls of the spaces up to rank [q]. *)
Lemma main_loop_grows_nth (base_url : string) (spaces : list space) (w : World)
    (m : mapping_t) (q : nat) (r : mapping_t * cleaner_state) :
  nth_error (fst (fst (main_loop BeautifulSoup find_html_no_js get_attr requests_get
                         links_file_lines base_url spaces w m))) q = Some r ->
  grows (flat_map (urls_of links_file_lines base_url) (firstn (S q) spaces)) m (fst r).
Proof.
  revert q w m. induction spaces as [|sp spaces IH]; intros q w m Hq.
  - destruct q; discriminate.
  - destruct (main_loop_cons base_url sp spaces w m)
      as [E | (w' & m' & st & Hc & E)]; [rewrite E in Hq; destruct q; discriminate|].
    pose proof (create_page_id_mapping_grows (urls_of links_file_lines base_url sp) w m)
      as Hg.
    rewrite Hc in Hg. cbn [fst snd] in Hg. cbn [firstn flat_map].
    destruct q as [|q].
    + assert (Er : r = (m', st)).
      { destruct E as [E|E]; rewrite E in Hq; now inversion Hq. }
      subst r. destruct spaces; cbn [firstn flat_map fst];
        exact (grows_trans _ [] _ _ _ Hg (grows_refl _ m')).
    + destruct E as [E|E]; rewrite E in Hq; [destruct q; discriminate|].
      cbn [nth_error] in Hq. exact (grows_trans _ _ _ _ _ Hg (IH _ _ _ Hq)).
Qed.

(** Each run recorded by the loop is [clean_export_data] applied to the
    mapping recorded with it and to the export folder of its space. *)
Lemma main_loop_runs (base_url : string) (spaces : list space) (w : World)
    (m : mapping_t) :
  let runs := fst (fst (main_loop BeautifulSoup find_html_no_js get_attr requests_get
                          links_file_lines base_url spaces w m)) in
  Forall2 (fun sp run => snd run = fst (clean_export_data (fst run) (export_folder sp)))
          (firstn (length runs) spaces) runs.
Proof.
  revert w m. induction spaces as [|sp spaces IH]; intros w m; cbn [main_loop].
  - constructor.
  - destruct (create_page_id_mapping _ _ _ _ _ w m) as [[w' m'] [e|]]; [constructor|].
    destruct (clean_export_data m' (export_folder sp)) as [st [e|]] eqn:E.
    + cbn. repeat constructor. cbn. now rewrite E.
    + specialize (IH w' m').
      destruct (main_loop _ _ _ _ _ base_url spaces w' m') as [[runs final] r].
      cbn in *. constructor; [cbn; now rewrite E | exact IH].
Qed.

(** C10. [create_page_id_mapping] never removes a key of the mapping nor
    moves it, adds keys at the end, and changes the identifier of no key
    other than the urls it resolves, whether it returns or raises; when it
    returns, every url it was given is a key. In the script the first run of
    [clean_export_data] reads the mapping resolved from the starting one, and
    each next run reads the mapping resolved from the mapping of the run
    before: the mapping is never reset between spaces. So the mapping a later
    run reads is grown from the mapping of every earlier run by the urls of
    the spaces in between, and each run is [clean_export_data] on that mapping
    and the folder of its space. *)
Theorem C10_mapping_only_grows_across_spaces :
  (forall (urls : list string) (w : World) (m : mapping_t),
      let r := create_page_id_mapping BeautifulSoup find_html_no_js get_attr
                 requests_get urls w m in
      let m' := snd (fst r) in
      (exists added, keys m' = keys m ++ added) /\
      length m <= length m' /\
      (forall k, In k (keys m) -> In k (keys m')) /\
      (forall k v, dict_get k m = Some v -> ~ In k urls -> dict_get k m' = Some v) /\
      (snd r = None -> forall url, In url urls -> In url (keys m'))) /\
  (forall (base_url : string) (spaces : list space) (w : World) (m : mapping_t),
      let runs := fst (fst (main_loop BeautifulSoup find_html_no_js get_attr
                              requests_get links_file_lines base_url spaces w m)) in
      (forall sp r0,
          nth_error spaces 0 = Some sp -> nth_error runs 0 = Some r0 ->
          exists w',
            create_page_id_mapping BeautifulSoup find_html_no_js get_attr requests_get
              (urls_of links_file_lines base_url sp) w m = (w', fst r0, None)) /\
      (forall k sp rk rk1,
          nth_error runs k = Some rk -> nth_error runs (S k) = Some rk1 ->
          nth_error spaces (S k) = Some sp ->
          exists wk wk',
            create_page_id_mapping BeautifulSoup find_html_no_js get_attr requests_get
              (urls_of links_file_lines base_url sp) wk (fst rk) = (wk', fst rk1, None)) /\
      (forall i j ri rj,
          i < j -> nth_error runs i = Some ri -> nth_error runs j = Some rj ->
          grows (flat_map (urls_of links_file_lines base_url)
                          (firstn (j - i) (skipn (S i) spaces)))
                (fst ri) (fst rj)) /\
      Forall2 (fun sp run =>
                 snd run = fst (clean_export_data (fst run) (export_folder sp)))
              (firstn (length runs) spaces) runs).
Proof.
  split.
  - intros urls w m r m'.
    destruct (create_page_id_mapping_grows urls w m) as [[added Hk] Hv].
    fold r in Hk, Hv. fold m' in Hk, Hv. split; [now exists added|].
    split; [|split; [|split]].
    + apply (f_equal (@length string)) in Hk. unfold keys in Hk.
      rewrite length_app, !length_map in Hk. lia.
    + intros k Hin. rewrite Hk. apply in_or_app. now left.
    + exact Hv.
    + apply create_page_id_mapping_inserts.
  - intros base_url spaces w m runs. split; [|split; [|split]].
    + intros sp r0. apply main_loop_first.
    + intros k sp rk rk1 Hk Hk1 Hsp.
      destruct (main_loop_from base_url spaces w m k rk Hk) as [wk Hwk].
      specialize (Hwk 0 rk1). rewrite Nat.add_0_r in Hwk. specialize (Hwk Hk1).
      exists wk. eapply main_loop_first; [|exact Hwk].
      rewrite nth_error_skipn, Nat.add_0_r. exact Hsp.
    + intros i j ri rj Hij Hi Hj.
      destruct (main_loop_from base_url spaces w m i ri Hi) as [wi Hwi].
      specialize (Hwi (j - S i) rj).
      replace (S i + (j - S i)) with j in Hwi by lia. specialize (Hwi Hj).
      apply main_loop_grows_nth in Hwi.
      replace (S (j - S i)) with (j - i) in Hwi by lia. exact Hwi.
    + apply main_loop_runs.
Qed.

End CollaboratorFacts.

Lemma C9_witness :
  exists paragraphs,
    getitem (extract_content Toy.BeautifulSoup Toy.find_all Toy.name Toy.get_text
               Toy.title_tag Toy.string_of "page" "https://kb/x/a") "paragraphs"
    = ok (JArray paragraphs) /\
    nth_error paragraphs 1 =
    Some (JObject [("header", JString "Setup"); ("content", JString "step one")]) /\
    length paragraphs = 3.
Proof.
  exact (proj1 (proj2 (C9_paragraph_gets_running_header Toy.soup Toy.tag
                         Toy.BeautifulSoup Toy.find_all Toy.name Toy.get_text
                         Toy.title_tag Toy.string_of))
           "page" "https://kb/x/a"
           [("p", "intro"); ("h1", "Setup"); ("div", "box")]
           [("h2", "Details"); ("p", "step two")] ("p", "step one")
           eq_refl eq_refl).
Defined.

Lemma C10_witness :
  map fst (fst (fst Toy.script)) =
  [[("https://knowledgebase.zetaglobal.com/zmp/41", Some "41")];
   [("https://knowledgebase.zetaglobal.com/zmp/41", Some "41");
    ("https://knowledgebase.zetaglobal.com/gswz/77", Some "77")]] /\
  map (fun run => good_mappings (snd run)) (fst (fst Toy.script)) =
  [[JString "https://knowledgebase.zetaglobal.com/zmp/41"];
   [JString "https://knowledgebase.zetaglobal.com/zmp/41"]] /\
  grows ["https://knowledgebase.zetaglobal.com/gswz/77"]
    [("https://knowledgebase.zetaglobal.com/zmp/41", Some "41")]
    [("https://knowledgebase.zetaglobal.com/zmp/41", Some "41");
     ("https://knowledgebase.zetaglobal.com/gswz/77", Some "77")].
Proof.
  split; [reflexivity|]. split; [reflexivity|].
  exact (proj1 (proj2 (proj2 (proj2 (C10_mapping_only_grows_across_spaces Toy.soup
                                       Toy.tag Toy.BeautifulSoup Toy.find_html_no_js
                                       Toy.get_attr unit Toy.requests_get
                                       Toy.links_file_lines)
                                    "https://knowledgebase.zetaglobal.com"
                                    [Toy.zmp; Toy.gswz] tt [])))
           0 1 _ _ (Nat.lt_0_succ 0) eq_refl eq_refl).
Defined.

(** * Further properties of the code *)

(** ** [sanitize_for_filename] *)

Section Sanitize.

Local Open Scope string_scope.

Lemma sanitize_app (a b : string) :
  sanitize_for_filename (a ++ b) = sanitize_for_filename a ++ sanitize_for_filename b.
Proof. induction a as [|c a IH]; cbn [append sanitize_for_filename]; [reflexivity | now rewrite IH]. Qed.

Lemma underscore_is_safe : mem_char "_" filename_unsafe = false.
Proof. reflexivity. Qed.

(** The sanitized name has the length of the original and holds no character
    of the class: it can be used as one path component. *)
Theorem sanitize_for_filename_is_safe :
  forall s : string,
    String.length (sanitize_for_filename s) = String.length s /\
    (forall c, mem_char c filename_unsafe = true ->
               mem_char c (sanitize_for_filename s) = false).
Proof.
  intros s. split.
  - induction s as [|c s IH]; cbn [sanitize_for_filename String.length]; congruence.
  - intros c Hc. induction s as [|d s IH]; cbn [sanitize_for_filename mem_char];
      [reflexivity|].
    rewrite IH, orb_false_r.
    destruct (mem_char d filename_unsafe) eqn:Hd.
    + apply Ascii.eqb_neq. intros ->. now rewrite underscore_is_safe in Hc.
    + apply Ascii.eqb_neq. intros ->. congruence.
Qed.

Lemma sanitize_for_filename_is_safe_witness :
  mem_char "/" filename_unsafe = true /\
  mem_char "/" (sanitize_for_filename "a/b\c") = false.
Proof.
  split; [reflexivity|].
  exact (proj2 (sanitize_for_filename_is_safe "a/b\c") "/"%char eq_refl).
Defined.

(** A name is left as it is exactly when it holds no character of the
    class; hence sanitizing twice is sanitizing once. *)
Theorem sanitize_for_filename_fixpoint :
  forall s : string,
    (sanitize_for_filename s = s <->
     forall c, mem_char c filename_unsafe = true -> mem_char c s = false) /\
    sanitize_for_filename (sanitize_for_filename s) = sanitize_for_filename s.
Proof.
  assert (Hfix : forall s,
             (forall c, mem_char c filename_unsafe = true -> mem_char c s = false) ->
             sanitize_for_filename s = s).
  { induction s as [|d s IH]; intros H; cbn [sanitize_for_filename]; [reflexivity|].
    rewrite IH.
    - destruct (mem_char d filename_unsafe) eqn:Hd; [|reflexivity].
      specialize (H d Hd). cbn [mem_char] in H. now rewrite Ascii.eqb_refl in H.
    - intros c Hc. specialize (H c Hc). cbn [mem_char] in H.
      now apply orb_false_iff in H. }
  intros s. split; [split|].
  - intros E c Hc. rewrite <- E. now apply sanitize_for_filename_is_safe.
  - apply Hfix.
  - apply Hfix. intros c Hc. now apply sanitize_for_filename_is_safe.
Qed.

Lemma sanitize_for_filename_fixpoint_witness :
  sanitize_for_filename "page_1.json" = "page_1.json" /\
  forall c, mem_char c filename_unsafe = true -> mem_char c "page_1.json" = false.
Proof.
  split; [reflexivity|].
  exact (proj1 (proj1 (sanitize_for_filename_fixpoint "page_1.json")) eq_refl).
Defined.

(** Two titles that differ only by which unsafe character stands at some
    place get the same file name: the function is not injective. *)
Theorem sanitize_for_filename_collides :
  forall (a b : string) (c1 c2 : ascii),
    mem_char c1 filename_unsafe = true ->
    mem_char c2 filename_unsafe = true ->
    sanitize_for_filename (a ++ String c1 b) = sanitize_for_filename (a ++ String c2 b).
Proof.
  intros a b c1 c2 H1 H2. rewrite !sanitize_app. cbn [sanitize_for_filename].
  now rewrite H1, H2.
Qed.

Lemma sanitize_for_filename_collides_witness :
  "FAQ: setup" <> "FAQ? setup" /\
  sanitize_for_filename "FAQ: setup" = sanitize_for_filename "FAQ? setup".
Proof.
  split; [discriminate|].
  exact (sanitize_for_filename_collides "FAQ" " setup" ":"%char "?"%char eq_refl eq_refl).
Defined.

End Sanitize.

(** ** The links file *)

Section LinksFile.

Local Open Scope string_scope.

Lemma boundary_free_not_CR (c : ascii) :
  is_line_boundary c = false -> Ascii.eqb c CR = false.
Proof.
  intros H. apply Ascii.eqb_neq. intros ->. discriminate.
Qed.

Lemma single_line_app (a b : string) :
  single_line (a ++ b) = single_line a && single_line b.
Proof.
  induction a as [|c a IH]; cbn [append single_line]; [reflexivity|].
  now rewrite IH, andb_assoc.
Qed.

Lemma universal_newlines_line (u rest : string) :
  single_line u = true ->
  universal_newlines (u ++ String LF rest) = u ++ String LF (universal_newlines rest).
Proof.
  induction u as [|c u IH]; cbn [append single_line]; intros H.
  - reflexivity.
  - apply andb_true_iff in H as [Hc Hu]. apply negb_true_iff in Hc.
    cbn [universal_newlines]. rewrite (boundary_free_not_CR _ Hc). now rewrite IH.
Qed.

Lemma splitlines_from_line (line u rest : string) :
  single_line u = true ->
  splitlines_from line (u ++ String LF rest) = (line ++ u) :: splitlines_from "" rest.
Proof.
  revert line. induction u as [|c u IH]; cbn [append single_line]; intros line H.
  - rewrite append_nil_r. cbn [splitlines_from].
    change (is_line_boundary LF) with true. cbn iota.
    destruct rest as [|c' rest']; [reflexivity|].
    change (Ascii.eqb LF CR) with false. reflexivity.
  - apply andb_true_iff in H as [Hc Hu]. apply negb_true_iff in Hc.
    cbn [splitlines_from]. rewrite Hc, (IH _ Hu), append_assoc. reflexivity.
Qed.

Lemma read_save_cons (url : string) (urls : list string) :
  single_line url = true ->
  read_links_file (save_urls_to_file (url :: urls)) =
  url :: read_links_file (save_urls_to_file urls).
Proof.
  intros H. unfold read_links_file, splitlines. cbn [save_urls_to_file].
  rewrite (universal_newlines_line _ _ H). now rewrite (splitlines_from_line "" _ _ H).
Qed.

Lemma read_save_single_lines (urls : list string) :
  Forall (fun url => single_line url = true) urls ->
  read_links_file (save_urls_to_file urls) = urls.
Proof.
  induction 1 as [|url urls H _ IH]; [reflexivity|].
  now rewrite (read_save_cons _ _ H), IH.
Qed.

Lemma save_urls_to_file_app (l1 l2 : list string) :
  save_urls_to_file (l1 ++ l2)%list = save_urls_to_file l1 ++ save_urls_to_file l2.
Proof.
  induction l1 as [|u l1 IH]; cbn [app save_urls_to_file append]; [reflexivity|].
  now rewrite IH, append_assoc.
Qed.

Lemma contains_single_line (v s : string) :
  contains v s = true -> single_line s = true -> single_line v = true.
Proof.
  intros Hc Hs. apply contains_iff in Hc as (a & b & ->).
  rewrite !single_line_app in Hs. apply andb_true_iff in Hs as [_ Hs].
  now apply andb_true_iff in Hs as [Hs _].
Qed.

(** Writing the urls and reading the lines back gives the same urls, in the
    same order, when none of them holds a line boundary. So the urls the
    script resolves are the urls extracted from the raw HTML when the base
    url and the matched href values are free of line boundaries. *)
Theorem links_file_round_trip :
  (forall urls : list string,
      Forall (fun url => single_line url = true) urls ->
      read_links_file (save_urls_to_file urls) = urls) /\
  (forall base_url text url_subdir : string,
      single_line base_url = true ->
      (forall href, In href (findall_href text) -> single_line href = true) ->
      read_links_file (find_links_in_html base_url text url_subdir) =
      extract_href_urls base_url text url_subdir).
Proof.
  split; [exact read_save_single_lines|].
  intros base_url text url_subdir Hb Hh. unfold find_links_in_html.
  apply read_save_single_lines. apply Forall_forall. intros url Hin.
  unfold extract_href_urls in Hin. apply in_map_iff in Hin as (href & <- & Hin).
  apply filter_In in Hin as [Hin _].
  rewrite single_line_app, Hb. now apply Hh.
Qed.

Lemma links_file_round_trip_witness :
  read_links_file (find_links_in_html "https://kb" sample_html "zmp") =
  ["https://kb/zmp/a"; "https://kb/zmp/a"].
Proof.
  refine (proj2 links_file_round_trip "https://kb" sample_html "zmp" eq_refl _).
  intros href Hin.
  change (findall_href sample_html) with ["/zmp/a"; "/other/b"; "/zmp/a"] in Hin.
  destruct Hin as [<-|[<-|[<-|[]]]]; reflexivity.
Defined.

(** A url that holds a line feed is read back as two urls: the file written
    for it is the file written for its two halves. *)
Theorem links_file_splits_url_at_line_feed :
  forall (pre post : list string) (a b : string),
    save_urls_to_file (pre ++ (a ++ String LF b)%string :: post)%list =
    save_urls_to_file (pre ++ a :: b :: post)%list /\
    (Forall (fun url => single_line url = true) (pre ++ a :: b :: post)%list ->
     read_links_file (save_urls_to_file (pre ++ (a ++ String LF b)%string :: post)%list) =
     (pre ++ a :: b :: post)%list).
Proof.
  intros pre post a b.
  assert (E : save_urls_to_file (pre ++ (a ++ String LF b)%string :: post)%list =
              save_urls_to_file (pre ++ a :: b :: post)%list).
  { rewrite !save_urls_to_file_app. cbn [save_urls_to_file].
    now rewrite !append_assoc. }
  split; [exact E|]. intros H. rewrite E. now apply read_save_single_lines.
Qed.

Lemma links_file_splits_url_at_line_feed_witness :
  read_links_file
    (save_urls_to_file ["https://kb/zmp/a"; "https://kb/zmp/b" ++ String LF "c"]) =
  ["https://kb/zmp/a"; "https://kb/zmp/b"; "c"].
Proof.
  apply (proj2 (links_file_splits_url_at_line_feed ["https://kb/zmp/a"] []
                  "https://kb/zmp/b" "c")).
  repeat constructor.
Defined.

End LinksFile.

(** ** More on the runs of [clean_export_data] *)

Section Iteration.

(** Every way an iteration can return. *)
Lemma process_file_ok_cases (mapping : mapping_t) (filename : string)
    (content : file_content) (st st' : cleaner_state) :
  process_file mapping filename content st = ok st' ->
  (endswith ".json" filename = false /\ st' = print (PrintSkipping filename) st) \/
  (endswith ".json" filename = true /\
   exists d u pid,
     content = Json (JObject d) /\ dict_get "url" d = Some (JString u) /\
     current_page_id_of u = Some pid /\
     ((~ In (Some pid) (values mapping) /\ st' = append_failed (JString u) st) \/
      (In (Some pid) (values mapping) /\
       exists t, dict_get "title" d = Some (JString t) /\
         ((startswith "Forward to" t = true /\ st' = st) \/
          (startswith "Forward to" t = false /\
           exists key ps,
             In key (keys mapping) /\ dict_get "paragraphs" d = Some ps /\
             st' = write_good filename (cleaned_record (JString t) u key ps)
                     (JString key) st))))).
Proof.
  intros Hok. destruct (endswith ".json" filename) eqn:Hf.
  2:{ left. split; [reflexivity|]. unfold process_file in Hok. rewrite Hf in Hok.
      now inversion Hok. }
  right. split; [reflexivity|].
  assert (Hshape : exists d u, content = Json (JObject d) /\
                               dict_get "url" d = Some (JString u)).
  { unfold process_file in Hok. rewrite Hf in Hok. cbn [negb] in Hok.
    destruct content as [[| | | | |d]|]; try discriminate.
    cbn [json_load bind ok getitem] in Hok.
    destruct (dict_get "url" d) as [[| | |u| |]|] eqn:Hu; try discriminate.
    now exists d, u. }
  destruct Hshape as (d & u & -> & Hu).
  destruct (current_page_id_shape u) as (_ & pid & Hp & _).
  exists d, u, pid. repeat split; try assumption.
  rewrite (process_file_json _ _ _ _ _ _ Hf Hu Hp) in Hok.
  destruct (existsb _ (values mapping)) eqn:Hm.
  2:{ left. split; [|now inversion Hok].
      intros Hin. apply membership_test in Hin. congruence. }
  apply membership_test in Hm. right. split; [exact Hm|].
  destruct (scan_cases mapping u)
    as [H | [(pre & key & post & -> & H) | (pre & key & v & post & -> & H & Hv)]].
  - now apply membership_excludes_no_match with (pid := pid) in H.
  - rewrite (rewrite_url_at_None _ _ _ _ _ H) in Hok. discriminate.
  - rewrite (rewrite_url_at_first_match _ _ _ _ _ _ H Hv) in Hok.
    cbn [bind ok] in Hok. rewrite getitem_rewritten_title in Hok. cbn [getitem] in Hok.
    destruct (dict_get "title" d) as [[| | |t| |]|] eqn:Ht; try discriminate.
    exists t. split; [reflexivity|]. cbn [bind ok as_str] in Hok.
    destruct (startswith "Forward to" t); [left; split; [reflexivity | now inversion Hok]|].
    right. split; [reflexivity|].
    destruct (dict_get "paragraphs" d) as [ps|] eqn:Hps.
    + rewrite (comprehension_rewritten _ _ _ _ _ Ht Hps) in Hok.
      exists key, ps. repeat split.
      * unfold keys. rewrite map_app. apply in_or_app. right. now left.
      * now inversion Hok.
    + rewrite (comprehension_missing_paragraphs _ _ _ _ Ht Hps) in Hok. discriminate.
Qed.

(** Every way an iteration can raise. *)
Lemma process_file_raise_cases (mapping : mapping_t) (filename : string)
    (content : file_content) (st : cleaner_state) (e : exn) :
  process_file mapping filename content st = raise e ->
  endswith ".json" filename = true /\
  (e = JSONDecodeError \/ e = TypeError \/ e = AttributeError \/
   e = KeyError "url" \/ e = KeyError "title" \/ e = KeyError "paragraphs").
Proof.
  intros Hr. destruct (endswith ".json" filename) eqn:Hf.
  2:{ unfold process_file in Hr. rewrite Hf in Hr. discriminate. }
  split; [reflexivity|].
  unfold process_file in Hr. rewrite Hf in Hr. cbn [negb] in Hr.
  destruct content as [doc|]; [|inversion Hr; auto].
  cbn [json_load bind ok] in Hr.
  destruct doc as [| | | | |d]; try (inversion Hr; auto; fail).
  cbn [getitem] in Hr.
  destruct (dict_get "url" d) as [url|] eqn:Hu; [|inversion Hr; auto 6].
  cbn [bind ok] in Hr.
  destruct url as [| | |u| |]; try (inversion Hr; auto; fail).
  cbn [as_str bind ok] in Hr.
  destruct (current_page_id_shape u) as (_ & pid & Hp & _). rewrite Hp in Hr.
  destruct (existsb _ (values mapping)) eqn:Hm; [|discriminate].
  apply membership_test in Hm.
  destruct (scan_cases mapping u)
    as [H | [(pre & key & post & -> & H) | (pre & key & v & post & -> & H & Hv)]].
  - now apply membership_excludes_no_match with (pid := pid) in H.
  - rewrite (rewrite_url_at_None _ _ _ _ _ H) in Hr. inversion Hr; auto.
  - rewrite (rewrite_url_at_first_match _ _ _ _ _ _ H Hv) in Hr.
    cbn [bind ok] in Hr. rewrite getitem_rewritten_title in Hr. cbn [getitem] in Hr.
    destruct (dict_get "title" d) as [title|] eqn:Ht; [|inversion Hr; auto 6].
    cbn [bind ok] in Hr.
    destruct title as [| | |t| |]; try (inversion Hr; auto; fail).
    cbn [as_str bind ok] in Hr.
    destruct (startswith "Forward to" t); [discriminate|].
    destruct (dict_get "paragraphs" d) as [ps|] eqn:Hps.
    + rewrite (comprehension_rewritten _ _ _ _ _ Ht Hps) in Hr. discriminate.
    + rewrite (comprehension_missing_paragraphs _ _ _ _ Ht Hps) in Hr.
      inversion Hr; auto 7.
Qed.

End Iteration.

Section RunFacts.

Lemma process_files_app (mapping : mapping_t) (pre post : listing) (st : cleaner_state) :
  process_files mapping (pre ++ post) st =
  match process_files mapping pre st with
  | (st', None) => process_files mapping post st'
  | (st', Some e) => (st', Some e)
  end.
Proof.
  revert st. induction pre as [|[fn c] pre IH]; intros st; cbn [app process_files].
  - reflexivity.
  - destruct (process_file mapping fn c st) as [e|st']; [reflexivity | apply IH].
Qed.

Lemma process_files_exception (mapping : mapping_t) (folder : listing)
    (st st' : cleaner_state) (e : exn) :
  process_files mapping folder st = (st', Some e) ->
  e = JSONDecodeError \/ e = TypeError \/ e = AttributeError \/
  e = KeyError "url" \/ e = KeyError "title" \/ e = KeyError "paragraphs".
Proof.
  revert st. induction folder as [|[fn c] folder IH]; intros st; cbn [process_files].
  - discriminate.
  - destruct (process_file mapping fn c st) as [e'|st1] eqn:E.
    + intros H. inversion H; subst. now apply process_file_raise_cases in E.
    + apply IH.
Qed.

(** No iteration and no run ends with an [IndexError], the split of the
    stripped url having a last segment whatever the url, nor with a
    [KeyError] for [internal_url]: a record that reaches the comprehension of
    line 75 was given that field at line 68. *)
Theorem clean_export_data_never_raises_for_segment_or_internal_url :
  forall (mapping : mapping_t) (folder : listing),
    (forall filename content st,
        process_file mapping filename content st <> raise IndexError /\
        process_file mapping filename content st <> raise (KeyError "internal_url")) /\
    snd (clean_export_data mapping folder) <> Some IndexError /\
    snd (clean_export_data mapping folder) <> Some (KeyError "internal_url").
Proof.
  intros mapping folder.
  assert (Hrun : forall e, snd (clean_export_data mapping folder) = Some e ->
                           e <> IndexError /\ e <> KeyError "internal_url").
  { intros e H. unfold clean_export_data in H.
    destruct (process_files mapping folder initial_state) as [st [e'|]] eqn:E.
    - cbn in H. inversion H; subst. apply process_files_exception in E.
      split; intros ->; repeat (destruct E as [E|E]; try discriminate).
    - unfold report in H. destruct (_ =? 0)%nat; [|discriminate].
      cbn in H. inversion H. split; discriminate. }
  split; [|split].
  - intros filename content st. split; intros H;
      apply process_file_raise_cases in H as [_ H];
      repeat (destruct H as [H|H]; try discriminate).
  - intros H. now destruct (Hrun _ H).
  - intros H. now destruct (Hrun _ H).
Qed.

Lemma clean_export_data_never_raises_for_segment_or_internal_url_witness :
  current_page_id_of "" = Some EmptyString /\
  snd (clean_export_data [("https://kb/x/a", Some EmptyString)]
         [("empty.json", Json (JObject [("title", JString "T"); ("url", JString "");
                                        ("paragraphs", JArray [])]))])
  <> Some IndexError.
Proof.
  split; [reflexivity|].
  exact (proj1 (proj2 (clean_export_data_never_raises_for_segment_or_internal_url
                         [("https://kb/x/a", Some EmptyString)]
                         [("empty.json",
                           Json (JObject [("title", JString "T"); ("url", JString "");
                                          ("paragraphs", JArray [])]))]))).
Defined.

(** An iteration that raises ends the run at once: the files written for the
    entries before it stay in the output folder, no later entry is read and
    no report is printed. *)
Theorem clean_export_data_stops_at_first_exception :
  forall (mapping : mapping_t) (pre post : listing) (filename : string)
         (content : file_content) (st : cleaner_state) (e : exn),
    process_files mapping pre initial_state = (st, None) ->
    process_file mapping filename content st = raise e ->
    clean_export_data mapping (pre ++ (filename, content) :: post) = (st, Some e) /\
    written st = written (fst (clean_export_data mapping pre)).
Proof.
  intros mapping pre post filename content st e Hpre Hr. split.
  - unfold clean_export_data. rewrite process_files_app, Hpre.
    cbn [process_files]. now rewrite Hr.
  - rewrite written_clean_export_data, Hpre. reflexivity.
Qed.

Lemma clean_export_data_stops_at_first_exception_witness :
  clean_export_data scenario_mapping
    ([("page_a.json", Json (JObject page_a))] ++
     ("broken.json", Malformed) :: [("page_z.json", Json (JObject page_z))]) =
  (mk_state
     [("page_a.json",
       cleaned_record (JString "Page A") "https://old/path/123" "https://kb/x/a"
         (JArray []))]
     [JString "https://kb/x/a"] [] [],
   Some JSONDecodeError).
Proof.
  exact (proj1 (clean_export_data_stops_at_first_exception scenario_mapping
                  [("page_a.json", Json (JObject page_a))]
                  [("page_z.json", Json (JObject page_z))]
                  "broken.json" Malformed _ JSONDecodeError eq_refl eq_refl)).
Defined.

End RunFacts.

Section Accounting.

Lemma process_file_counts (mapping : mapping_t) (filename : string)
    (content : file_content) (st st' : cleaner_state) :
  process_file mapping filename content st = ok st' ->
  length (good_mappings st') + length (failed_mappings st') +
  (if is_matched_redirect mapping (filename, content) then 1 else 0) =
  length (good_mappings st) + length (failed_mappings st) +
  (if is_json_name (filename, content) then 1 else 0).
Proof.
  intros Hok. unfold is_matched_redirect, is_json_name. cbn [fst snd].
  apply process_file_ok_cases in Hok
    as [[Hf ->] | (Hf & d & u & pid & -> & Hu & Hp & H)]; rewrite Hf.
  - reflexivity.
  - rewrite Hu, Hp. cbn [andb].
    destruct H as [[Hn ->] | (Hin & t & Ht & H)].
    + assert (Hm : existsb (fun p => page_id_eqb p pid) (values mapping) = false).
      { destruct (existsb _ (values mapping)) eqn:E; [|reflexivity].
        apply membership_test in E. contradiction. }
      destruct (dict_get "title" d) as [[| | |t| |]|];
        cbn [append_failed failed_mappings good_mappings]; rewrite ?Hm;
        cbn [andb]; rewrite length_app; cbn [length]; lia.
    + apply membership_test in Hin. rewrite Ht, Hin. cbn [andb].
      destruct H as [[Hfw ->] | (Hfw & key & ps & _ & _ & ->)]; rewrite Hfw.
      * lia.
      * cbn [write_good failed_mappings good_mappings]. rewrite length_app.
        cbn [length]. lia.
Qed.

Lemma process_files_counts (mapping : mapping_t) (folder : listing)
    (st st' : cleaner_state) :
  process_files mapping folder st = (st', None) ->
  length (good_mappings st') + length (failed_mappings st') +
  length (filter (is_matched_redirect mapping) folder) =
  length (good_mappings st) + length (failed_mappings st) +
  length (filter is_json_name folder).
Proof.
  revert st. induction folder as [|[fn c] folder IH]; intros st; cbn [process_files filter].
  - intros H. inversion H. lia.
  - destruct (process_file mapping fn c st) as [e|st1] eqn:E; [discriminate|].
    intros H. apply IH in H. apply process_file_counts in E.
    destruct (is_matched_redirect mapping (fn, c)), (is_json_name (fn, c));
      cbn [length]; lia.
Qed.

Lemma process_files_written_good (mapping : mapping_t) (folder : listing)
    (st : cleaner_state) :
  length (written st) = length (good_mappings st) ->
  length (written (fst (process_files mapping folder st))) =
  length (good_mappings (fst (process_files mapping folder st))).
Proof.
  revert st. induction folder as [|[fn c] folder IH]; intros st Hst; cbn [process_files].
  - exact Hst.
  - destruct (process_file mapping fn c st) as [e|st1] eqn:E1; [exact Hst|].
    apply IH.
    apply process_file_ok_cases in E1
      as [[_ ->] | (_ & d & u & pid & _ & _ & _ &
                    [[_ ->] | (_ & t & _ & [[_ ->] | (_ & key & ps & _ & _ & ->)])])];
      cbn; rewrite ?length_app; cbn; lia.
Qed.

(** When a run returns, every [.json] entry was counted once: as succeeded,
    as failed, or as a matched redirect that is in neither list. The ratio
    printed is the succeeded count over the [.json] entries that are not
    matched redirects, and there is at least one of those. *)
Theorem completed_run_accounting :
  forall (mapping : mapping_t) (folder : listing),
    snd (clean_export_data mapping folder) = None ->
    let st := fst (clean_export_data mapping folder) in
    let good := length (good_mappings st) in
    let failed := length (failed_mappings st) in
    good + failed + length (filter (is_matched_redirect mapping) folder) =
    length (filter is_json_name folder) /\
    0 < good + failed /\
    length (written st) = good /\
    In (PrintRatio good (good + failed)) (stdout st).
Proof.
  intros mapping folder H.
  pose proof (process_files_written_good mapping folder initial_state eq_refl) as Hw.
  unfold clean_export_data in *.
  destruct (process_files mapping folder initial_state) as [st0 [e|]] eqn:E;
    [discriminate|].
  pose proof (process_files_counts _ _ _ _ E) as Hc. cbn in Hc, Hw.
  unfold report in *.
  destruct (_ =? 0)%nat eqn:Ez; [discriminate|].
  apply Nat.eqb_neq in Ez. cbn. rewrite length_app in Ez |- *.
  repeat split; try lia.
  apply in_or_app. left. apply in_or_app. left. apply in_or_app. right. now left.
Qed.

Lemma completed_run_accounting_witness :
  length (filter (is_matched_redirect scenario_mapping) mixed_folder) = 1 /\
  length (filter is_json_name mixed_folder) = 3 /\
  In (PrintRatio 1 2) (stdout (fst (clean_export_data scenario_mapping mixed_folder))).
Proof.
  split; [reflexivity|]. split; [reflexivity|].
  exact (proj2 (proj2 (proj2
           (completed_run_accounting scenario_mapping mixed_folder eq_refl)))).
Defined.

End Accounting.

Section Outputs.

Lemma process_files_written_content (mapping : mapping_t) (folder : listing)
    (st : cleaner_state) (filename : string) (record : json) :
  In (filename, record) (written (fst (process_files mapping folder st))) ->
  In (filename, record) (written st) \/
  exists d t u key ps,
    In (filename, Json (JObject d)) folder /\
    dict_get "title" d = Some (JString t) /\
    dict_get "url" d = Some (JString u) /\
    dict_get "paragraphs" d = Some ps /\
    In key (keys mapping) /\
    record = cleaned_record (JString t) u key ps.
Proof.
  revert st. induction folder as [|[fn c] folder IH]; intros st; cbn [process_files].
  - auto.
  - destruct (process_file mapping fn c st) as [e|st1] eqn:E; [auto|].
    intros Hin. destruct (IH _ Hin) as [Hin1 | (d & t & u & key & ps & H & Hrest)].
    + apply process_file_ok_cases in E
        as [[_ ->] | (_ & d & u & pid & -> & Hu & _ &
                      [[_ ->] | (_ & t & Ht & [[_ ->] | (_ & key & ps & Hk & Hps & ->)])])];
        cbn in Hin1; auto.
      apply in_app_or in Hin1 as [Hin1 | [Heq | []]]; [auto|].
      inversion Heq; subst. right. exists d, t, u, key, ps.
      repeat split; auto. now left.
    + right. exists d, t, u, key, ps. split; [now right | exact Hrest].
Qed.

(** Every file of the output folder is an input record of the same name with
    its title and paragraphs untouched, its url kept as [internal_url], and a
    key of the mapping as [url]; it holds these four fields and no other. *)
Theorem written_records_keep_title_and_paragraphs :
  forall (mapping : mapping_t) (folder : listing) (filename : string) (record : json),
    In (filename, record) (written (fst (clean_export_data mapping folder))) ->
    exists d t u key ps,
      In (filename, Json (JObject d)) folder /\
      dict_get "title" d = Some (JString t) /\
      dict_get "url" d = Some (JString u) /\
      dict_get "paragraphs" d = Some ps /\
      In key (keys mapping) /\
      record = JObject [("title", JString t); ("internal_url", JString u);
                        ("url", JString key); ("paragraphs", ps)].
Proof.
  intros mapping folder filename record Hin.
  rewrite written_clean_export_data in Hin.
  apply process_files_written_content in Hin as [[] | H]. exact H.
Qed.

Lemma written_records_keep_title_and_paragraphs_witness :
  exists d t u key ps,
    In ("page_a.json", Json (JObject d)) mixed_folder /\
    dict_get "title" d = Some (JString t) /\
    dict_get "url" d = Some (JString u) /\
    dict_get "paragraphs" d = Some ps /\
    In key (keys scenario_mapping) /\
    cleaned_record (JString "Page A") "https://old/path/123" "https://kb/x/a" (JArray [])
    = JObject [("title", JString t); ("internal_url", JString u);
               ("url", JString key); ("paragraphs", ps)].
Proof.
  exact (written_records_keep_title_and_paragraphs scenario_mapping mixed_folder
           "page_a.json" _ (or_introl eq_refl)).
Defined.

Lemma process_files_mirrors (mapping : mapping_t) (folder : listing) (st : cleaner_state) :
  Forall2 (mirrors mapping) (written st) (good_mappings st) ->
  Forall2 (mirrors mapping)
          (written (fst (process_files mapping folder st)))
          (good_mappings (fst (process_files mapping folder st))).
Proof.
  revert st. induction folder as [|[fn c] folder IH]; intros st Hst; cbn [process_files].
  - exact Hst.
  - destruct (process_file mapping fn c st) as [e|st1] eqn:E; [exact Hst|].
    apply IH.
    apply process_file_ok_cases in E
      as [[_ ->] | (_ & d & u & pid & _ & _ & _ &
                    [[_ ->] | (_ & t & _ & [[_ ->] | (_ & key & ps & Hk & _ & ->)])])];
      cbn; auto.
    apply Forall2_app; [exact Hst|]. constructor; [|constructor].
    exists key. repeat split. exact Hk.
Qed.

(** The succeeded list is, in order, the urls of the files written, and
    each of them is a key of the mapping; this holds of a run that raised as
    well. *)
Theorem succeeded_list_mirrors_written_files :
  forall (mapping : mapping_t) (folder : listing),
    let st := fst (clean_export_data mapping folder) in
    Forall2 (mirrors mapping) (written st) (good_mappings st) /\
    length (written st) = length (good_mappings st) /\
    (forall g, In g (good_mappings st) ->
               exists key, g = JString key /\ In key (keys mapping)).
Proof.
  intros mapping folder st.
  assert (H : Forall2 (mirrors mapping) (written st) (good_mappings st)).
  { subst st. unfold clean_export_data.
    pose proof (process_files_mirrors mapping folder initial_state (Forall2_nil _)) as H.
    destruct (process_files mapping folder initial_state) as [st0 [e|]]; [exact H|].
    unfold report. destruct (_ =? 0)%nat; exact H. }
  split; [exact H|]. split; [now apply Forall2_length in H|].
  intros g Hin. clear - H Hin.
  induction H as [|file g' ws gs (key & -> & Hk & _) _ IH]; [destruct Hin|].
  destruct Hin as [<-|Hin]; [now exists key | now apply IH].
Qed.

Lemma succeeded_list_mirrors_written_files_witness :
  exists key,
    JString "https://kb/x/a" = JString key /\ In key (keys scenario_mapping).
Proof.
  exact (proj2 (proj2 (succeeded_list_mirrors_written_files scenario_mapping
                         mixed_folder)) _ (or_introl eq_refl)).
Defined.

Lemma process_files_failed (mapping : mapping_t) (folder : listing)
    (st : cleaner_state) (f : json) :
  In f (failed_mappings (fst (process_files mapping folder st))) ->
  In f (failed_mappings st) \/
  exists filename d u pid,
    In (filename, Json (JObject d)) folder /\
    endswith ".json" filename = true /\
    dict_get "url" d = Some (JString u) /\ f = JString u /\
    current_page_id_of u = Some pid /\ ~ In (Some pid) (values mapping).
Proof.
  revert st. induction folder as [|[fn c] folder IH]; intros st; cbn [process_files].
  - auto.
  - destruct (process_file mapping fn c st) as [e|st1] eqn:E; [auto|].
    intros Hin.
    destruct (IH _ Hin) as [Hin1 | (filename & d & u & pid & H & Hrest)].
    + apply process_file_ok_cases in E
        as [[_ ->] | (Hf & d & u & pid & -> & Hu & Hp &
                      [[Hn ->] | (_ & t & Ht & [[_ ->] | (_ & key & ps & Hk & Hps & ->)])])];
        cbn in Hin1; auto.
      apply in_app_or in Hin1 as [Hin1 | [<- | []]]; [auto|].
      right. exists fn, d, u, pid. repeat split; auto. now left.
    + right. exists filename, d, u, pid. split; [now right | exact Hrest].
Qed.

(** Every entry of the failed list is the url of a [.json] record of the
    folder whose page id equals no identifier of the mapping. *)
Theorem failed_list_holds_unmatched_urls :
  forall (mapping : mapping_t) (folder : listing) (f : json),
    In f (failed_mappings (fst (clean_export_data mapping folder))) ->
    exists filename d u pid,
      In (filename, Json (JObject d)) folder /\
      endswith ".json" filename = true /\
      dict_get "url" d = Some (JString u) /\ f = JString u /\
      current_page_id_of u = Some pid /\ ~ In (Some pid) (values mapping).
Proof.
  intros mapping folder f Hin.
  assert (E : failed_mappings (fst (clean_export_data mapping folder)) =
              failed_mappings (fst (process_files mapping folder initial_state))).
  { unfold clean_export_data.
    destruct (process_files mapping folder initial_state) as [st0 [e|]]; [reflexivity|].
    unfold report. now destruct (_ =? 0)%nat. }
  rewrite E in Hin. apply process_files_failed in Hin as [[] | H]. exact H.
Qed.

Lemma failed_list_holds_unmatched_urls_witness :
  exists filename d u pid,
    In (filename, Json (JObject d)) mixed_folder /\
    endswith ".json" filename = true /\
    dict_get "url" d = Some (JString u) /\
    JString "https://old/path/999" = JString u /\
    current_page_id_of u = Some pid /\ ~ In (Some pid) (values scenario_mapping).
Proof.
  exact (failed_list_holds_unmatched_urls scenario_mapping mixed_folder _
           (or_introl eq_refl)).
Defined.

End Outputs.

Section EdgeCases.

Lemma process_files_non_json (mapping : mapping_t) (folder : listing) (st : cleaner_state) :
  Forall (fun entry => is_json_name entry = false) folder ->
  snd (process_files mapping folder st) = None /\
  good_mappings (fst (process_files mapping folder st)) = good_mappings st /\
  failed_mappings (fst (process_files mapping folder st)) = failed_mappings st.
Proof.
  intros H. revert st. induction H as [|[fn c] folder Hj _ IH]; intros st.
  - cbn. auto.
  - cbn [process_files]. unfold is_json_name in Hj. cbn [fst] in Hj.
    unfold process_file. rewrite Hj. cbn [negb].
    destruct (IH (print (PrintSkipping fn) st)) as (H1 & H2 & H3).
    split; [exact H1|]. split; [exact H2 | exact H3].
Qed.

(** The report divides by zero exactly when the loop ended without exception
    and left both lists empty. This is the case of every folder that holds
    only names not ending in [.json]. *)
Theorem report_divides_by_zero_iff :
  forall (mapping : mapping_t) (folder : listing),
    (snd (clean_export_data mapping folder) = Some ZeroDivisionError <->
     snd (process_files mapping folder initial_state) = None /\
     good_mappings (fst (process_files mapping folder initial_state)) = [] /\
     failed_mappings (fst (process_files mapping folder initial_state)) = []) /\
    (Forall (fun entry => is_json_name entry = false) folder ->
     snd (clean_export_data mapping folder) = Some ZeroDivisionError).
Proof.
  intros mapping folder.
  assert (Hiff : snd (clean_export_data mapping folder) = Some ZeroDivisionError <->
                 snd (process_files mapping folder initial_state) = None /\
                 good_mappings (fst (process_files mapping folder initial_state)) = [] /\
                 failed_mappings (fst (process_files mapping folder initial_state)) = []).
  { unfold clean_export_data.
    destruct (process_files mapping folder initial_state) as [st0 [e|]] eqn:E; cbn [fst snd].
    - split.
      + intros H. inversion H; subst.
        apply process_files_exception in E.
        repeat (destruct E as [E|E]; try discriminate).
      + intros [H _]. discriminate.
    - unfold report.
      destruct (good_mappings st0) as [|g gs]; destruct (failed_mappings st0) as [|f fs];
        cbn; split; try tauto; try discriminate;
        intros (_ & H1 & H2); discriminate. }
  split; [exact Hiff|].
  intros H. apply Hiff. apply (process_files_non_json mapping folder initial_state H).
Qed.

Lemma report_divides_by_zero_iff_witness :
  snd (clean_export_data scenario_mapping [("notes.txt", Malformed); ("img.png", Malformed)])
  = Some ZeroDivisionError.
Proof.
  apply (proj2 (report_divides_by_zero_iff scenario_mapping
                  [("notes.txt", Malformed); ("img.png", Malformed)])).
  repeat constructor.
Defined.

(** A page resolved without the page-id attribute leaves [None] in the
    mapping. A record whose page id equals an identifier raises [TypeError]
    when such an entry comes before every entry whose identifier occurs in
    its url; an unmatched record is not affected. *)
Theorem none_identifier_raises_type_error :
  forall (pre post : mapping_t) (key filename : string) (d : dict json)
         (u pid : string) (st : cleaner_state),
    endswith ".json" filename = true ->
    dict_get "url" d = Some (JString u) ->
    current_page_id_of u = Some pid ->
    passed_over u pre ->
    let mapping := pre ++ (key, None) :: post in
    (In (Some pid) (values mapping) ->
     process_file mapping filename (Json (JObject d)) st = raise TypeError) /\
    (~ In (Some pid) (values mapping) ->
     process_file mapping filename (Json (JObject d)) st =
     ok (append_failed (JString u) st)).
Proof.
  intros pre post key filename d u pid st Hf Hu Hp Hpre mapping.
  rewrite (process_file_json _ _ _ _ _ _ Hf Hu Hp). split; intros H.
  - apply membership_test in H. rewrite H.
    subst mapping. now rewrite (rewrite_url_at_None _ _ _ _ _ Hpre).
  - destruct (existsb _ (values mapping)) eqn:E; [|reflexivity].
    apply membership_test in E. contradiction.
Qed.

Lemma none_identifier_raises_type_error_witness :
  process_file ([] ++ ("https://kb/x/c", None) :: scenario_mapping) "page_a.json"
    (Json (JObject page_a)) initial_state = raise TypeError.
Proof.
  apply (proj1 (none_identifier_raises_type_error [] scenario_mapping "https://kb/x/c"
                  "page_a.json" page_a "https://old/path/123" "123" initial_state
                  eq_refl eq_refl eq_refl (Forall_nil _))).
  right. left. reflexivity.
Defined.

(** The title and the paragraphs are read only for a record whose page id
    equals an identifier. Without them an unmatched record still goes to the
    failed list; a matched record raises [KeyError] for the title, and for
    the paragraphs unless its title starts with the redirect prefix, in which
    case it is skipped without its paragraphs being read. *)
Theorem missing_fields_matter_only_when_matched :
  forall (mapping : mapping_t) (filename : string) (d : dict json) (u pid : string)
         (st : cleaner_state),
    endswith ".json" filename = true ->
    dict_get "url" d = Some (JString u) ->
    current_page_id_of u = Some pid ->
    (~ In (Some pid) (values mapping) ->
     process_file mapping filename (Json (JObject d)) st =
     ok (append_failed (JString u) st)) /\
    (In (Some pid) (values mapping) -> identifiers_are_strings mapping ->
     (dict_get "title" d = None ->
      process_file mapping filename (Json (JObject d)) st = raise (KeyError "title")) /\
     (forall t, dict_get "title" d = Some (JString t) ->
                dict_get "paragraphs" d = None ->
                process_file mapping filename (Json (JObject d)) st =
                if startswith "Forward to" t then ok st
                else raise (KeyError "paragraphs"))).
Proof.
  intros mapping filename d u pid st Hf Hu Hp. split.
  - intros H. rewrite (process_file_json _ _ _ _ _ _ Hf Hu Hp).
    destruct (existsb _ (values mapping)) eqn:E; [|reflexivity].
    apply membership_test in E. contradiction.
  - intros Hin Hstr.
    destruct (first_match_exists _ _ _ Hp Hin Hstr) as (pre & key & v & post & -> & H & Hv).
    split.
    + intros Ht. rewrite (process_file_json _ _ _ _ _ _ Hf Hu Hp).
      apply membership_test in Hin. rewrite Hin.
      rewrite (rewrite_url_at_first_match _ _ _ _ _ _ H Hv). cbn [bind ok].
      rewrite getitem_rewritten_title. cbn [getitem]. now rewrite Ht.
    + intros t Ht Hps.
      rewrite (process_file_matched _ _ _ _ _ _ _ _ _ _ Hf Hu Hp Hin H Hv Ht).
      now rewrite Hps.
Qed.

Lemma missing_fields_matter_only_when_matched_witness :
  process_file scenario_mapping "bare.json"
    (Json (JObject [("url", JString "https://old/path/999")])) initial_state =
  ok (append_failed (JString "https://old/path/999") initial_state) /\
  process_file scenario_mapping "bare.json"
    (Json (JObject [("url", JString "https://old/path/123")])) initial_state =
  raise (KeyError "title").
Proof.
  split.
  - apply (proj1 (missing_fields_matter_only_when_matched scenario_mapping "bare.json"
                    [("url", JString "https://old/path/999")] "https://old/path/999"
                    "999" initial_state eq_refl eq_refl eq_refl)).
    simpl. intros [H|[H|[]]]; discriminate.
  - apply (proj1 (proj2 (missing_fields_matter_only_when_matched scenario_mapping
                           "bare.json" [("url", JString "https://old/path/123")]
                           "https://old/path/123" "123" initial_state
                           eq_refl eq_refl eq_refl)
                    (or_introl eq_refl)
                    ltac:(repeat constructor; discriminate))).
    reflexivity.
Defined.

End EdgeCases.

(** ** More on the resolver and the content extractor *)

Section ResolverFacts.

Variables soup tag : Type.
Variable BeautifulSoup : string -> soup.
Variable find_all : soup -> list tag.
Variable name : tag -> string.
Variable get_text : tag -> string.
Variable title_tag : soup -> option tag.
Variable string_of : tag -> option string.
Variable find_html_no_js : soup -> option tag.
Variable get_attr : tag -> string -> option string.
Variable World : Type.
Variable requests_get : string -> World -> World * result string.

Lemma resolve_app (a b : list string) (w : World) (m : mapping_t) :
  create_page_id_mapping BeautifulSoup find_html_no_js get_attr requests_get (a ++ b) w m =
  match create_page_id_mapping BeautifulSoup find_html_no_js get_attr requests_get a w m with
  | (w1, m1, None) =>
      create_page_id_mapping BeautifulSoup find_html_no_js get_attr requests_get b w1 m1
  | r => r
  end.
Proof.
  revert w m. induction a as [|url a IH]; intros w m; cbn [app create_page_id_mapping].
  - reflexivity.
  - destruct (requests_get url w) as [w' [e|html]]; [reflexivity|].
    destruct (find_html_no_js (BeautifulSoup html)); [apply IH | reflexivity].
Qed.

Lemma resolve_keys_sound (urls : list string) (w : World) (m : mapping_t) (k : string) :
  In k (keys (snd (fst (create_page_id_mapping BeautifulSoup find_html_no_js get_attr
                          requests_get urls w m)))) ->
  In k (keys m) \/ In k urls.
Proof.
  revert w m. induction urls as [|url urls IH]; intros w m; cbn [create_page_id_mapping].
  - auto.
  - destruct (requests_get url w) as [w' [e|html]]; [auto|].
    destruct (find_html_no_js (BeautifulSoup html)) as [t|]; [|auto].
    intros H. apply IH in H as [H|H]; [|right; now right].
    rewrite keys_dict_set in H. destruct (existsb _ (keys m)); [auto|].
    apply in_app_or in H as [H|[<-|[]]]; [auto | right; now left].
Qed.

Lemma NoDup_keys_dict_set (url : string) (p : page_id) (m : mapping_t) :
  NoDup (keys m) -> NoDup (keys (dict_set url p m)).
Proof.
  intros H. rewrite keys_dict_set. destruct (existsb _ (keys m)) eqn:E; [exact H|].
  apply NoDup_app; [exact H | repeat constructor; intros [] |].
  intros k Hk [<-|[]]. apply existsb_eqb_In in Hk. congruence.
Qed.

Lemma resolve_NoDup (urls : list string) (w : World) (m : mapping_t) :
  NoDup (keys m) ->
  NoDup (keys (snd (fst (create_page_id_mapping BeautifulSoup find_html_no_js get_attr
                           requests_get urls w m)))).
Proof.
  revert w m. induction urls as [|url urls IH]; intros w m H; cbn [create_page_id_mapping].
  - exact H.
  - destruct (requests_get url w) as [w' [e|html]]; [exact H|].
    destruct (find_html_no_js (BeautifulSoup html)) as [t|]; [|exact H].
    apply IH. now apply NoDup_keys_dict_set.
Qed.

Lemma resolve_keys_complete (urls : list string) (w : World) (m : mapping_t) :
  snd (create_page_id_mapping BeautifulSoup find_html_no_js get_attr requests_get urls w m)
  = None ->
  forall k, In k (keys m) \/ In k urls ->
            In k (keys (snd (fst (create_page_id_mapping BeautifulSoup find_html_no_js
                                    get_attr requests_get urls w m)))).
Proof.
  revert w m. induction urls as [|url urls IH]; intros w m; cbn [create_page_id_mapping].
  - intros _ k [H|[]]. exact H.
  - destruct (requests_get url w) as [w' [e|html]]; [discriminate|].
    destruct (find_html_no_js (BeautifulSoup html)) as [t|]; [|discriminate].
    intros Hr k Hk. apply (IH _ _ Hr).
    destruct Hk as [Hk|[<-|Hk]]; [left | left | now right].
    + rewrite keys_dict_set. destruct (existsb _ (keys m)); [exact Hk|].
      apply in_or_app. now left.
    + rewrite keys_dict_set. destruct (existsb _ (keys m)) eqn:E.
      * now apply existsb_eqb_In.
      * apply in_or_app. right. now left.
Qed.

(** Resolving a list of urls in two batches, the second from the mapping and
    the world the first left, is resolving it at once; a batch that raises
    ends the whole. *)
Theorem create_page_id_mapping_in_batches :
  forall (a b : list string) (w : World) (m : mapping_t),
    create_page_id_mapping BeautifulSoup find_html_no_js get_attr requests_get (a ++ b) w m =
    match create_page_id_mapping BeautifulSoup find_html_no_js get_attr requests_get a w m
    with
    | (w1, m1, None) =>
        create_page_id_mapping BeautifulSoup find_html_no_js get_attr requests_get b w1 m1
    | r => r
    end.
Proof. exact resolve_app. Qed.

(** The keys of the mapping after a call are keys it had or urls it was
    given, and no others; all of them when the call returns. Keys stay
    distinct. *)
Theorem create_page_id_mapping_key_set :
  forall (urls : list string) (w : World) (m : mapping_t),
    let r := create_page_id_mapping BeautifulSoup find_html_no_js get_attr requests_get
               urls w m in
    (forall k, In k (keys (snd (fst r))) -> In k (keys m) \/ In k urls) /\
    (snd r = None ->
     forall k, In k (keys (snd (fst r))) <-> In k (keys m) \/ In k urls) /\
    (NoDup (keys m) -> NoDup (keys (snd (fst r)))).
Proof.
  intros urls w m r. split; [|split].
  - intros k. apply resolve_keys_sound.
  - intros Hr k. split; [apply resolve_keys_sound | now apply resolve_keys_complete].
  - apply resolve_NoDup.
Qed.

(** The first url whose request raises, or whose page has no root element of
    the expected class, ends the call with that exception: the mapping is the
    one reached before it and no later url is requested. *)
Theorem create_page_id_mapping_fails_fast :
  forall (pre post : list string) (url : string) (w w1 w2 : World) (m m1 : mapping_t),
    create_page_id_mapping BeautifulSoup find_html_no_js get_attr requests_get pre w m
    = (w1, m1, None) ->
    (forall e, requests_get url w1 = (w2, inl e) ->
               create_page_id_mapping BeautifulSoup find_html_no_js get_attr requests_get
                 (pre ++ url :: post) w m = (w2, m1, Some e)) /\
    (forall html, requests_get url w1 = (w2, inr html) ->
                  find_html_no_js (BeautifulSoup html) = None ->
                  create_page_id_mapping BeautifulSoup find_html_no_js get_attr
                    requests_get (pre ++ url :: post) w m = (w2, m1, Some AttributeError)).
Proof.
  intros pre post url w w1 w2 m m1 Hpre. split.
  - intros e He. rewrite resolve_app, Hpre. cbn [create_page_id_mapping]. now rewrite He.
  - intros html He Hn. rewrite resolve_app, Hpre. cbn [create_page_id_mapping].
    now rewrite He, Hn.
Qed.

(** After a call that returns, the identifier of the last url of the list is
    the one read from the page fetched for it, whatever was stored for that
    url before. *)
Theorem create_page_id_mapping_last_fetch_wins :
  forall (pre : list string) (url html : string) (t : tag) (w w1 w2 : World)
         (m m1 : mapping_t),
    create_page_id_mapping BeautifulSoup find_html_no_js get_attr requests_get pre w m
    = (w1, m1, None) ->
    requests_get url w1 = (w2, inr html) ->
    find_html_no_js (BeautifulSoup html) = Some t ->
    let r := create_page_id_mapping BeautifulSoup find_html_no_js get_attr requests_get
               (pre ++ [url]) w m in
    snd r = None /\
    dict_get url (snd (fst r)) = Some (get_attr t "data-vp-page-id") /\
    (In url (keys m1) -> keys (snd (fst r)) = keys m1).
Proof.
  intros pre url html t w w1 w2 m m1 Hpre He Ht r. subst r.
  rewrite resolve_app, Hpre. cbn [create_page_id_mapping]. rewrite He, Ht. cbn [fst snd].
  split; [reflexivity|]. split; [apply dict_get_set_same|].
  intros Hin. rewrite keys_dict_set.
  apply existsb_eqb_In in Hin. now rewrite Hin.
Qed.

End ResolverFacts.

Lemma create_page_id_mapping_key_set_witness :
  In "https://kb/zmp/42"
     (keys (snd (fst (create_page_id_mapping Toy.BeautifulSoup Toy.find_html_no_js
                        Toy.get_attr Toy.requests_get
                        ["https://kb/zmp/41"; "https://kb/zmp/42"] tt
                        [("https://kb/zmp/7", Some "7")])))) <->
  In "https://kb/zmp/42" (keys [("https://kb/zmp/7", Some "7")]) \/
  In "https://kb/zmp/42" ["https://kb/zmp/41"; "https://kb/zmp/42"].
Proof.
  exact (proj1 (proj2 (create_page_id_mapping_key_set Toy.soup Toy.tag Toy.BeautifulSoup
                         Toy.find_html_no_js Toy.get_attr unit Toy.requests_get
                         ["https://kb/zmp/41"; "https://kb/zmp/42"] tt
                         [("https://kb/zmp/7", Some "7")])) eq_refl
           "https://kb/zmp/42").
Defined.

Lemma create_page_id_mapping_fails_fast_witness :
  create_page_id_mapping Toy.BeautifulSoup Toy.find_html_no_js Toy.get_attr
    Flaky.requests_get
    (["https://kb/zmp/41"] ++ "https://kb/zmp/down" :: ["https://kb/zmp/42"]) 0 [] =
  (2, [("https://kb/zmp/41", Some "41")], Some RequestException) /\
  create_page_id_mapping Toy.BeautifulSoup Toy.find_html_no_js Toy.get_attr
    Flaky.requests_get
    (["https://kb/zmp/41"] ++ "https://kb/zmp/plain" :: ["https://kb/zmp/42"]) 0 [] =
  (2, [("https://kb/zmp/41", Some "41")], Some AttributeError).
Proof.
  split.
  - exact (proj1 (create_page_id_mapping_fails_fast Toy.soup Toy.tag Toy.BeautifulSoup
                    Toy.find_html_no_js Toy.get_attr nat Flaky.requests_get
                    ["https://kb/zmp/41"] ["https://kb/zmp/42"] "https://kb/zmp/down"
                    0 1 2 [] [("https://kb/zmp/41", Some "41")] eq_refl)
             RequestException eq_refl).
  - exact (proj2 (create_page_id_mapping_fails_fast Toy.soup Toy.tag Toy.BeautifulSoup
                    Toy.find_html_no_js Toy.get_attr nat Flaky.requests_get
                    ["https://kb/zmp/41"] ["https://kb/zmp/42"] "https://kb/zmp/plain"
                    0 1 2 [] [("https://kb/zmp/41", Some "41")] eq_refl)
             "page" eq_refl eq_refl).
Defined.

Lemma create_page_id_mapping_last_fetch_wins_witness :
  dict_get "https://kb/zmp/41"
    (snd (fst (create_page_id_mapping Toy.BeautifulSoup Toy.find_html_no_js Toy.get_attr
                 Toy.requests_get (["https://kb/zmp/42"] ++ ["https://kb/zmp/41"]) tt
                 [("https://kb/zmp/41", Some "stale")]))) = Some (Some "41").
Proof.
  exact (proj1 (proj2 (create_page_id_mapping_last_fetch_wins Toy.soup Toy.tag
                         Toy.BeautifulSoup Toy.find_html_no_js Toy.get_attr unit
                         Toy.requests_get ["https://kb/zmp/42"] "https://kb/zmp/41" "41"
                         ("html", "41") tt tt tt [("https://kb/zmp/41", Some "stale")]
                         [("https://kb/zmp/41", Some "stale"); ("https://kb/zmp/42", Some "42")]
                         eq_refl eq_refl eq_refl))).
Defined.

Section ContentToRecord.

Variables soup tag : Type.
Variable BeautifulSoup : string -> soup.
Variable find_all : soup -> list tag.
Variable name : tag -> string.
Variable get_text : tag -> string.
Variable title_tag : soup -> option tag.
Variable string_of : tag -> option string.

(** The record [extract_content] builds, given to the Reconciler under a
    [.json] name. Unmatched, it goes to the failed list with the url it was
    built with. Matched (identifiers being strings), it is written with its
    title and its paragraphs when the page has no title element (the title is
    then the default one) or a title holding one string outside the redirect
    prefix; it is skipped when that string starts with the prefix; and it
    raises [AttributeError] when the title element holds no single string,
    the title being [None]. *)
Theorem extracted_record_in_reconciler :
  forall (html web_url filename pid : string) (mapping : mapping_t) (st : cleaner_state),
    endswith ".json" filename = true ->
    current_page_id_of web_url = Some pid ->
    let record := extract_content BeautifulSoup find_all name get_text title_tag
                    string_of html web_url in
    let paragraphs :=
      JArray (paragraphs_loop name get_text (find_all (BeautifulSoup html)) "" []) in
    (~ In (Some pid) (values mapping) ->
     process_file mapping filename (Json record) st =
     ok (append_failed (JString web_url) st)) /\
    (In (Some pid) (values mapping) -> identifiers_are_strings mapping ->
     exists key,
       In key (keys mapping) /\
       process_file mapping filename (Json record) st =
       match title_tag (BeautifulSoup html) with
       | None =>
           ok (write_good filename
                 (cleaned_record (JString "No Title") web_url key paragraphs)
                 (JString key) st)
       | Some t =>
           match string_of t with
           | None => raise AttributeError
           | Some text =>
               if startswith "Forward to" text then ok st
               else ok (write_good filename
                          (cleaned_record (JString text) web_url key paragraphs)
                          (JString key) st)
           end
       end).
Proof.
  intros html web_url filename pid mapping st Hf Hp record paragraphs.
  unfold extract_content in record.
  set (d := [("title", title_of title_tag string_of (BeautifulSoup html));
             ("url", JString web_url); ("paragraphs", paragraphs)]).
  assert (Hu : dict_get "url" d = Some (JString web_url)) by reflexivity.
  assert (Hps : dict_get "paragraphs" d = Some paragraphs) by reflexivity.
  assert (Ht : dict_get "title" d = Some (title_of title_tag string_of (BeautifulSoup html)))
    by reflexivity.
  change record with (JObject d). split.
  - intros Hn. rewrite (process_file_json _ _ _ _ _ _ Hf Hu Hp).
    destruct (existsb _ (values mapping)) eqn:E; [|reflexivity].
    apply membership_test in E. contradiction.
  - intros Hin Hstr.
    destruct (first_match_exists _ _ _ Hp Hin Hstr) as (pre & key & v & post & -> & H & Hv).
    exists key. split; [unfold keys; rewrite map_app; apply in_or_app; right; now left|].
    unfold title_of in Ht.
    destruct (title_tag (BeautifulSoup html)) as [t|].
    + destruct (string_of t) as [text|].
      * rewrite (process_file_matched _ _ _ _ _ _ _ _ _ _ Hf Hu Hp Hin H Hv Ht).
        now rewrite Hps.
      * rewrite (process_file_json _ _ _ _ _ _ Hf Hu Hp).
        apply membership_test in Hin. rewrite Hin.
        rewrite (rewrite_url_at_first_match _ _ _ _ _ _ H Hv). cbn [bind ok].
        rewrite getitem_rewritten_title. cbn [getitem]. now rewrite Ht.
    + rewrite (process_file_matched _ _ _ _ _ _ _ _ _ _ Hf Hu Hp Hin H Hv Ht).
      now rewrite Hps.
Qed.

End ContentToRecord.

Lemma extracted_record_in_reconciler_witness :
  exists key,
    In key (keys mapping_123) /\
    process_file mapping_123 "page.json"
      (Json (extract_content Toy.BeautifulSoup Toy.find_all Toy.name Toy.get_text
               Toy.title_tag Toy.string_of "page" "https://old/path/123"))
      initial_state =
    ok (write_good "page.json"
          (cleaned_record (JString "No Title") "https://old/path/123" key
             (JArray [paragraph "" "intro"; paragraph "Setup" "step one";
                      paragraph "Details" "step two"]))
          (JString key) initial_state).
Proof.
  exact (proj2 (extracted_record_in_reconciler Toy.soup Toy.tag Toy.BeautifulSoup
                  Toy.find_all Toy.name Toy.get_text Toy.title_tag Toy.string_of
                  "page" "https://old/path/123" "page.json" "123" mapping_123
                  initial_state eq_refl eq_refl)
           (or_introl eq_refl) ltac:(repeat constructor; discriminate)).
Defined.

(** ** [write_html_2_file] *)

Section Template.

Local Open Scope string_scope.

Lemma replace_occurrences_cons (a : ascii) (old' new : string) (c : ascii) (s : string) :
  replace_occurrences a old' new (String c s) =
  match strip_prefix (String a old') (String c s) with
  | Some rest => new ++ replace_occurrences a old' new rest
  | None => String c (replace_occurrences a old' new s)
  end.
Proof.
  simp replace_occurrences.
  destruct (inspect (strip_prefix (String a old') (String c s))) as [[rest|] e].
  - assert (R : match strip_prefix (String a old') (String c s) with
                | Some rest => new ++ replace_occurrences a old' new rest
                | None => String c (replace_occurrences a old' new s)
                end = new ++ replace_occurrences a old' new rest)
      by (rewrite e; reflexivity).
    rewrite R. reflexivity.
  - assert (R : match strip_prefix (String a old') (String c s) with
                | Some rest => new ++ replace_occurrences a old' new rest
                | None => String c (replace_occurrences a old' new s)
                end = String c (replace_occurrences a old' new s))
      by (rewrite e; reflexivity).
    rewrite R. reflexivity.
Qed.

Lemma double_backslashes_cons (c : ascii) (s : string) :
  double_backslashes (String c s) =
  if Ascii.eqb c "\" then String "\" (String "\" (double_backslashes s))
  else String c (double_backslashes s).
Proof.
  unfold double_backslashes, str_replace. rewrite replace_occurrences_cons.
  cbn [strip_prefix]. rewrite (Ascii.eqb_sym "\"%char c).
  destruct (Ascii.eqb c "\"); reflexivity.
Qed.

(** What line 113 doubles, [re.sub] reads back as it was. *)
Lemma expand_double_backslashes (s : string) :
  expand_template (double_backslashes s) = Some s.
Proof.
  induction s as [|c s IH]; [reflexivity|].
  rewrite double_backslashes_cons. destruct (Ascii.eqb c "\") eqn:E.
  - apply Ascii.eqb_eq in E. subst c. cbn [expand_template].
    rewrite Ascii.eqb_refl, IH. reflexivity.
  - cbn [expand_template]. rewrite E, IH. reflexivity.
Qed.

Lemma fill_placeholder_substitutes (placeholder replacement html_content : string) :
  fill_placeholder placeholder replacement html_content =
  Some (substitute placeholder replacement html_content).
Proof. unfold fill_placeholder. now rewrite expand_double_backslashes. Qed.

Lemma match_placeholder_starts (placeholder s rest : string) :
  match_placeholder placeholder s = Some rest -> String.prefix "{%" s = true.
Proof.
  unfold match_placeholder.
  destruct (strip_prefix "{%" s) as [s1|] eqn:E; [|discriminate].
  intros _. apply strip_prefix_spec in E. apply prefix_iff. now exists s1.
Qed.

Lemma substitute_without_opening (placeholder text s : string) :
  contains "{%" s = false -> substitute placeholder text s = s.
Proof.
  funelim (substitute placeholder text s).
  - reflexivity.
  - intros Hc. pose proof (match_placeholder_starts _ _ _ e) as Hs.
    cbn [contains] in Hc. now rewrite Hs in Hc.
  - intros Hc. cbn [contains] in Hc. apply orb_false_iff in Hc as [_ Hc].
    now rewrite (H Hc).
Qed.

Lemma substitute_cons (placeholder text : string) (c : ascii) (s : string) :
  substitute placeholder text (String c s) =
  match match_placeholder placeholder (String c s) with
  | Some rest => text ++ substitute placeholder text rest
  | None => String c (substitute placeholder text s)
  end.
Proof.
  simp substitute.
  destruct (inspect (match_placeholder placeholder (String c s))) as [[rest|] e].
  - assert (R : match match_placeholder placeholder (String c s) with
                | Some rest => text ++ substitute placeholder text rest
                | None => String c (substitute placeholder text s)
                end = text ++ substitute placeholder text rest)
      by (rewrite e; reflexivity).
    rewrite R. reflexivity.
  - assert (R : match match_placeholder placeholder (String c s) with
                | Some rest => text ++ substitute placeholder text rest
                | None => String c (substitute placeholder text s)
                end = String c (substitute placeholder text s))
      by (rewrite e; reflexivity).
    rewrite R. reflexivity.
Qed.

Lemma substitute_at_match (placeholder text s rest : string) :
  match_placeholder placeholder s = Some rest ->
  substitute placeholder text s = text ++ substitute placeholder text rest.
Proof.
  destruct s as [|c s]; [discriminate|].
  intros H. now rewrite substitute_cons, H.
Qed.

Lemma substitute_before_brace (placeholder text a rest : string) :
  mem_char "{" a = false ->
  substitute placeholder text (a ++ rest) = a ++ substitute placeholder text rest.
Proof.
  induction a as [|c a IH]; cbn [append mem_char]; intros H; [reflexivity|].
  apply orb_false_iff in H as [Hc Ha].
  rewrite substitute_cons. unfold match_placeholder. cbn [strip_prefix].
  rewrite Hc. now rewrite (IH Ha).
Qed.

Lemma strip_prefix_is_prefix (p s rest : string) :
  strip_prefix p s = Some rest -> String.prefix p s = true.
Proof. intros H. apply strip_prefix_spec in H. apply prefix_iff. now exists rest. Qed.

Lemma replace_without_occurrence (a : ascii) (old' new s : string) :
  contains (String a old') s = false -> replace_occurrences a old' new s = s.
Proof.
  induction s as [|c s IH]; intros H; [now simp replace_occurrences|].
  rewrite replace_occurrences_cons.
  cbn [contains] in H. apply orb_false_iff in H as [Hp Hc].
  destruct (strip_prefix (String a old') (String c s)) as [rest|] eqn:E.
  - apply strip_prefix_is_prefix in E. congruence.
  - now rewrite (IH Hc).
Qed.

(** An occurrence of the extension that starts in [a] and is found in [a]
    followed by the extension lies within [a]: the extension does not overlap
    itself. *)
Lemma html_does_not_overlap (a b rest : string) (c : ascii) :
  strip_prefix ".html" (String c a ++ ".html" ++ b) = Some rest ->
  exists rest', strip_prefix ".html" (String c a) = Some rest'.
Proof.
  intros H.
  destruct a as [|c2 a]; [|destruct a as [|c3 a]; [|destruct a as [|c4 a];
    [|destruct a as [|c5 a]]]]; cbn [append strip_prefix] in H |- *.
  - destruct (Ascii.eqb "." c); [|discriminate]. cbn in H. discriminate.
  - destruct (Ascii.eqb "." c); [|discriminate].
    destruct (Ascii.eqb "h" c2); [|discriminate]. cbn in H. discriminate.
  - destruct (Ascii.eqb "." c); [|discriminate].
    destruct (Ascii.eqb "h" c2); [|discriminate].
    destruct (Ascii.eqb "t" c3); [|discriminate]. cbn in H. discriminate.
  - destruct (Ascii.eqb "." c); [|discriminate].
    destruct (Ascii.eqb "h" c2); [|discriminate].
    destruct (Ascii.eqb "t" c3); [|discriminate].
    destruct (Ascii.eqb "m" c4); [|discriminate]. cbn in H. discriminate.
  - destruct (Ascii.eqb "." c); [|discriminate].
    destruct (Ascii.eqb "h" c2); [|discriminate].
    destruct (Ascii.eqb "t" c3); [|discriminate].
    destruct (Ascii.eqb "m" c4); [|discriminate].
    destruct (Ascii.eqb "l" c5); [|discriminate]. eauto.
Qed.

Lemma json_path_app (a b : string) :
  contains ".html" a = false ->
  json_path (a ++ ".html" ++ b) = a ++ ".json" ++ json_path b.
Proof.
  unfold json_path, str_replace.
  induction a as [|c a IH]; intros H.
  - cbn [append]. rewrite replace_occurrences_cons. reflexivity.
  - cbn [contains] in H. apply orb_false_iff in H as [Hp Hc].
    change ((String c a ++ ".html" ++ b)) with (String c (a ++ ".html" ++ b)).
    rewrite replace_occurrences_cons.
    destruct (strip_prefix ".html" (String c (a ++ ".html" ++ b))) as [rest|] eqn:E.
    + apply (html_does_not_overlap a b rest c) in E as [rest' E].
      apply strip_prefix_is_prefix in E. congruence.
    + rewrite (IH Hc). reflexivity.
Qed.

End Template.

Section WriteHtml2FileFacts.

Local Open Scope string_scope.

Variables soup tag : Type.
Variable BeautifulSoup : string -> soup.
Variable find_all : soup -> list tag.
Variable name : tag -> string.
Variable get_text : tag -> string.
Variable title_tag : soup -> option tag.
Variable string_of : tag -> option string.

Lemma contains_after_no_brace (a rest : string) :
  mem_char "{" a = false -> contains "{%" rest = false -> contains "{%" (a ++ rest) = false.
Proof.
  induction a as [|c a IH]; cbn [append mem_char]; intros Ha Hr; [exact Hr|].
  apply orb_false_iff in Ha as [Hc Ha]. cbn [contains]. rewrite (IH Ha Hr), orb_false_r.
  cbn [String.prefix]. destruct (ascii_dec "{" c) as [<-|_]; [discriminate | reflexivity].
Qed.

(** The three texts reach the page as they are, backslashes included: the
    doubling of line 113 undoes the reading of the replacement by [re.sub],
    so no text is taken for a group reference or an escape and none makes the
    substitution fail. The file written is named by [json_path] and its [url]
    is the url given. *)
Theorem write_html_2_file_inserts_texts_literally :
  forall (path title content html_template web_url : string)
         (additional_headers : option (list string)),
    let headers := match additional_headers with
                   | Some (h :: hs) =>
                       join (String LF (String "009"%char EmptyString)) (h :: hs)
                   | _ => EmptyString
                   end in
    let html_content :=
      substitute "additional_headers" headers
        (substitute "content" content (substitute "title" title html_template)) in
    fill_template title content html_template additional_headers = Some html_content /\
    write_html_2_file BeautifulSoup find_all name get_text title_tag string_of
      path title content html_template web_url additional_headers =
    Some (json_path path,
          extract_content BeautifulSoup find_all name get_text title_tag string_of
            html_content web_url) /\
    getitem (extract_content BeautifulSoup find_all name get_text title_tag string_of
               html_content web_url) "url" = ok (JString web_url).
Proof.
  intros path title content html_template web_url additional_headers headers html_content.
  assert (E : fill_template title content html_template additional_headers =
              Some html_content).
  { unfold fill_template. fold headers. now rewrite !fill_placeholder_substitutes. }
  split; [exact E|]. split; [|reflexivity].
  unfold write_html_2_file. now rewrite E.
Qed.

(** A template without an opening brace followed by a percent sign is the
    page, whatever the title, the content and the headers: none of them
    reaches the record written. *)
Theorem template_without_placeholder_drops_texts :
  forall (path title content html_template web_url : string)
         (additional_headers : option (list string)),
    contains "{%" html_template = false ->
    write_html_2_file BeautifulSoup find_all name get_text title_tag string_of
      path title content html_template web_url additional_headers =
    Some (json_path path,
          extract_content BeautifulSoup find_all name get_text title_tag string_of
            html_template web_url).
Proof.
  intros path title content html_template web_url additional_headers H.
  unfold write_html_2_file, fill_template.
  rewrite !fill_placeholder_substitutes.
  rewrite (substitute_without_opening "title" _ _ H).
  rewrite (substitute_without_opening "content" _ _ H).
  now rewrite (substitute_without_opening "additional_headers" _ _ H).
Qed.

(** A title placeholder, in any case and with any white space the pattern
    admits, standing after a text without brace, is replaced by the title;
    when neither the title nor what follows opens another placeholder, the
    page is the template with the title in its place. *)
Theorem title_placeholder_is_filled :
  forall (a placeholder b title content : string)
         (additional_headers : option (list string)),
    mem_char "{" a = false ->
    match_placeholder "title" (placeholder ++ b) = Some b ->
    contains "{%" (title ++ b) = false ->
    fill_template title content (a ++ placeholder ++ b) additional_headers =
    Some (a ++ title ++ b).
Proof.
  intros a placeholder b title content additional_headers Ha Hm Hc.
  unfold fill_template. rewrite !fill_placeholder_substitutes.
  assert (Hb : contains "{%" b = false).
  { destruct (contains "{%" b) eqn:E; [|reflexivity].
    apply contains_iff in E as (x & y & ->).
    assert (contains "{%" (title ++ x ++ "{%" ++ y) = true); [|congruence].
    apply contains_iff. exists (title ++ x), y. now rewrite !append_assoc. }
  rewrite (substitute_before_brace _ _ _ _ Ha), (substitute_at_match _ _ _ _ Hm).
  rewrite (substitute_without_opening "title" _ _ Hb).
  pose proof (contains_after_no_brace _ _ Ha Hc) as H.
  rewrite (substitute_without_opening "content" _ _ H).
  now rewrite (substitute_without_opening "additional_headers" _ _ H).
Qed.

(** The passes follow one another on the page so far: a content placeholder
    brought by the title is filled by the content. *)
Theorem placeholder_in_title_is_filled_by_content :
  forall (placeholder title content : string) (additional_headers : option (list string)),
    match_placeholder "title" placeholder = Some EmptyString ->
    match_placeholder "content" title = Some EmptyString ->
    contains "{%" content = false ->
    fill_template title content placeholder additional_headers = Some content.
Proof.
  intros placeholder title content additional_headers Ht Hc Hn.
  unfold fill_template. rewrite !fill_placeholder_substitutes.
  rewrite (substitute_at_match _ _ _ _ Ht). simp substitute. rewrite append_nil_r.
  rewrite (substitute_at_match _ _ _ _ Hc). simp substitute. rewrite append_nil_r.
  now rewrite (substitute_without_opening "additional_headers" _ _ Hn).
Qed.

(** The path of the JSON file: every [.html] of the path becomes [.json],
    in a directory name as well as at the end, and a path without [.html] is
    kept as it is. *)
Theorem json_path_replaces_every_html :
  (forall a b : string,
      contains ".html" a = false ->
      json_path (a ++ ".html" ++ b) = a ++ ".json" ++ json_path b) /\
  (forall stem : string,
      contains ".html" stem = false -> json_path (stem ++ ".html") = stem ++ ".json") /\
  (forall path : string, contains ".html" path = false -> json_path path = path).
Proof.
  split; [exact json_path_app|]. split.
  - intros stem H. apply (json_path_app stem "" H).
  - intros path H. unfold json_path, str_replace. now apply replace_without_occurrence.
Qed.

End WriteHtml2FileFacts.

Lemma template_without_placeholder_drops_texts_witness :
  write_html_2_file Toy.BeautifulSoup Toy.find_all Toy.name Toy.get_text Toy.title_tag
    Toy.string_of "out/page.html" "Setup" "<p>body</p>" "page" "https://kb/x/a" None =
  Some ("out/page.json",
        extract_content Toy.BeautifulSoup Toy.find_all Toy.name Toy.get_text
          Toy.title_tag Toy.string_of "page" "https://kb/x/a").
Proof.
  exact (template_without_placeholder_drops_texts Toy.soup Toy.tag Toy.BeautifulSoup
           Toy.find_all Toy.name Toy.get_text Toy.title_tag Toy.string_of
           "out/page.html" "Setup" "<p>body</p>" "page" "https://kb/x/a" None eq_refl).
Defined.

Lemma title_placeholder_is_filled_witness :
  fill_template "C:\docs\1" "body" ("<h1>" ++ "{%  TiTle %}" ++ "</h1>")%string None =
  Some ("<h1>" ++ "C:\docs\1" ++ "</h1>")%string.
Proof.
  exact (title_placeholder_is_filled "<h1>" "{%  TiTle %}" "</h1>" "C:\docs\1" "body"
           None eq_refl eq_refl eq_refl).
Defined.

Lemma placeholder_in_title_is_filled_by_content_witness :
  fill_template "{% content %}" "body" "{% title %}" None = Some "body".
Proof.
  exact (placeholder_in_title_is_filled_by_content "{% title %}" "{% content %}" "body"
           None eq_refl eq_refl eq_refl).
Defined.

Lemma json_path_replaces_every_html_witness :
  json_path ("export/a" ++ ".html" ++ ".d/page.html")%string =
  ("export/a" ++ ".json" ++ ".d/page.json")%string /\
  json_path "export/page.htm" = "export/page.htm".
Proof.
  split.
  - rewrite (proj1 json_path_replaces_every_html "export/a" ".d/page.html" eq_refl).
    reflexivity.
  - exact (proj2 (proj2 json_path_replaces_every_html) "export/page.htm" eq_refl).
Defined.
